(** * Profile calculator: dimension validator and geometry engine

    A shallow embedding of
    - [standalone/js/modules/profiles/profileTypes.js]
      (the profile registry tables and [ProfileValidator]),
    - the copy of [ProfileValidator] inlined in
      [standalone/test/profileTypes.html],
    - [standalone/js/modules/calculations/profileCalculator.js]
      ([ProfileCalculator]; the file kept as [unnamed/part_005]), and
    - the test data and the [assertClose] helper of
      [standalone/test/profileCalculator.html] (kept as [unnamed/part_000]),
    - the rule table [ProfileValidation] of [core/config/profiles.js]
      (kept in [unnamed/part_003]), and
    - [standalone/js/modules/calculations/unitConverter.js]
      ([UnitConverter]; kept in [unnamed/part_006]),
    followed by the properties of the specification that concern them and
    by further properties read off the code.

    JavaScript numbers are IEEE 754 binary64 values; they are modelled by
    Rocq's primitive floats, whose operations are the same binary64
    operations, so concrete calls evaluate to the very numbers the program
    returns. *)

From Stdlib Require Import PrimFloat FloatOps FloatAxioms SpecFloat.
From stdpp Require Import base strings list gmap.

(* Decimal literals such as 0.1 denote the nearest binary64 value, as in
   JavaScript. *)
Set Warnings "-inexact-float".

(** ** The fragment of JavaScript the program uses *)

Module Js.

(** Values a dimension entry may hold.  Strings, objects, symbols and
    big integers are left out ([ToNumber] of a string is a parser, [+] with
    a string operand concatenates, an object assigned to [__proto__] becomes
    the prototype): the properties below are about entries that are numbers,
    booleans, [null], [undefined] or absent. *)
Inductive value : Type :=
| Undefined
| Null
| Bool (b : bool)
| Number (x : float).

(** [typeof v === 'number'] *)
Definition typeof_number (v : value) : bool :=
  match v with Number _ => true | _ => false end.

(** The abstract operation ToNumber on the values above. *)
Definition ToNumber (v : value) : float :=
  match v with
  | Undefined => nan
  | Null => 0%float
  | Bool true => 1%float
  | Bool false => 0%float
  | Number x => x
  end.

(** Relational operators on numbers: false as soon as an operand is NaN. *)
Definition lt (x y : float) : bool := PrimFloat.ltb x y.
Definition le (x y : float) : bool := PrimFloat.leb x y.
Definition gt (x y : float) : bool := PrimFloat.ltb y x.
Definition ge (x y : float) : bool := PrimFloat.leb y x.

Definition is_neg_zero (x : float) : bool :=
  PrimFloat.is_zero x && PrimFloat.get_sign x.

(** [Math.min(x, y)]: NaN if either is NaN, and -0 is below +0. *)
Definition Math_min (x y : float) : float :=
  if PrimFloat.is_nan x || PrimFloat.is_nan y then nan
  else if lt x y then x
  else if lt y x then y
  else if is_neg_zero x then x else y.

(** [Math.max(x, y)]: NaN if either is NaN, and +0 is above -0. *)
Definition Math_max (x y : float) : float :=
  if PrimFloat.is_nan x || PrimFloat.is_nan y then nan
  else if lt y x then x
  else if lt x y then y
  else if is_neg_zero x then y else x.

(** [Math.PI], the binary64 value nearest to pi (3.141592653589793). *)
Definition Math_PI : float := 0x1.921fb54442d18p+1%float.

(** [Math.pow(x, n)] for the literal exponents 2, 3 and 4 of the program,
    as repeated multiplication.  ECMAScript leaves [Math.pow]
    implementation-approximated; the engines compute it to within one unit
    in the last place, hence exactly when the power is a binary64 value, as
    it is at every input evaluated below. *)
Fixpoint Math_pow (x : float) (n : nat) : float :=
  match n with
  | O => 1%float
  | S O => x
  | S k => (x * Math_pow x k)%float
  end.

Definition Math_sqrt (x : float) : float := PrimFloat.sqrt x.

(** *** Completions: a call returns a value or throws *)

Inductive thrown : Type :=
| TypeError                 (* raised by the engine, e.g. for-of over a non-iterable *)
| Error (message : string). (* [throw new Error(message)] *)

Inductive outcome (A : Type) : Type :=
| Returned (a : A)
| Threw (e : thrown).
Global Arguments Returned {A} a.
Global Arguments Threw {A} e.

Global Instance outcome_ret : MRet outcome := fun _ a => Returned a.
Global Instance outcome_bind : MBind outcome := fun _ _ f m =>
  match m with
  | Returned a => f a
  | Threw e => Threw e
  end.

(** *** Objects written as literals

    An object literal is the list of its own properties in source order;
    its prototype is [Object.prototype], whose properties every literal
    inherits. *)

Definition object (A : Type) : Type := list (string * A).

Definition ObjectPrototype : list string :=
  [ "constructor"; "__defineGetter__"; "__defineSetter__"; "hasOwnProperty";
    "__lookupGetter__"; "__lookupSetter__"; "isPrototypeOf";
    "propertyIsEnumerable"; "toString"; "valueOf"; "__proto__";
    "toLocaleString" ].

(** The result of [o[key]]. *)
Inductive property (A : Type) : Type :=
| Own (a : A)               (* an own property of the literal *)
| Inherited (name : string) (* a function (or the prototype itself) found on Object.prototype *)
| Missing.                  (* [undefined] *)
Global Arguments Own {A} a.
Global Arguments Inherited {A} name.
Global Arguments Missing {A}.

Fixpoint own {A} (o : object A) (key : string) : option A :=
  match o with
  | [] => None
  | (k, a) :: o' => if bool_decide (k = key) then Some a else own o' key
  end.

Definition get {A} (o : object A) (key : string) : property A :=
  match own o key with
  | Some a => Own a
  | None =>
      if bool_decide (key ∈ ObjectPrototype) then Inherited key else Missing
  end.

(** [Object.values(o)] *)
Definition values {A} (o : object A) : list A := o.*2.

(** [for (const x of p)]: only an array can be iterated here. *)
Definition iterate {A} (p : property (list A)) : outcome (list A) :=
  match p with
  | Own l => Returned l
  | Inherited _ | Missing => Threw TypeError
  end.

(** Truthiness of a looked-up string property. *)
Definition truthy (p : property string) : bool :=
  match p with
  | Own s => negb (bool_decide (s = ""))
  | Inherited _ => true
  | Missing => false
  end.

End Js.

Import Js.

(** ** profileTypes.js: the profile registry *)

(** The values of the [ProfileType] enumeration. *)
Definition ROUND_TUBE : string := "round_tube".
Definition SQUARE_TUBE : string := "square_tube".
Definition RECTANGULAR_TUBE : string := "rectangular_tube".
Definition ANGLE : string := "angle".
Definition CHANNEL : string := "channel".
Definition I_BEAM : string := "i_beam".

(** [const ProfileType = { ROUND_TUBE: 'round_tube', ... }]: the property
    names are the upper-case constant names, the values the type strings. *)
Definition ProfileType : object string :=
  [ ("ROUND_TUBE", ROUND_TUBE);
    ("SQUARE_TUBE", SQUARE_TUBE);
    ("RECTANGULAR_TUBE", RECTANGULAR_TUBE);
    ("ANGLE", ANGLE);
    ("CHANNEL", CHANNEL);
    ("I_BEAM", I_BEAM) ].

(** [RequiredDimensions], keyed by the computed names [[ProfileType.X]],
    that is by the type strings. *)
Definition RequiredDimensions : object (list string) :=
  [ (ROUND_TUBE, ["diameter"; "thickness"; "length"]);
    (SQUARE_TUBE, ["width"; "thickness"; "length"]);
    (RECTANGULAR_TUBE, ["width"; "height"; "thickness"; "length"]);
    (ANGLE, ["width"; "height"; "thickness"; "length"]);
    (CHANNEL, ["width"; "height"; "thickness"; "length"; "flange_width"]);
    (I_BEAM, ["width"; "height"; "web_thickness"; "flange_thickness"; "length"]) ].

Definition OptionalDimensions : object (list string) :=
  [ (ROUND_TUBE, ["outer_radius"]);
    (SQUARE_TUBE, ["outer_radius"; "inner_radius"]);
    (RECTANGULAR_TUBE, ["outer_radius"; "inner_radius"]);
    (ANGLE, ["inner_radius"; "toe_radius"]);
    (CHANNEL, ["root_radius"; "toe_radius"]);
    (I_BEAM, ["root_radius"; "toe_radius"; "k_dimension"]) ].

(** ** Dimensions and validation results *)

(** A dimensions object: a plain object, given by its own data properties.
    No dimension name of the registry is a property of [Object.prototype]
    (lemma [registry_names_not_inherited]), so [dim in dimensions] is the
    presence of an own property.  A call that passes [null], [undefined] or
    a primitive where the object is expected is not represented: there
    [dim in dimensions] raises a TypeError. *)
Abbreviation Dimensions := (gmap string value).

(** [dim in dimensions] *)
Definition has (dimensions : Dimensions) (dim : string) : bool :=
  bool_decide (is_Some (dimensions !! dim)).

(** [dimensions[dim]], [undefined] when absent. *)
Definition read (dimensions : Dimensions) (dim : string) : value :=
  default Undefined (dimensions !! dim).

(** A dimension used as an operand of an arithmetic or relational operator. *)
Definition num (dimensions : Dimensions) (dim : string) : float :=
  ToNumber (read dimensions dim).

Record ValidationResult : Type := mkResult {
  isValid : bool;
  errors : list string;
  warnings : list string
}.

(** [result.isValid = false; result.errors.push(message)] *)
Definition fail (result : ValidationResult) (message : string) : ValidationResult :=
  {| isValid := false;
     errors := errors result ++ [message];
     warnings := warnings result |}.

(** [result.warnings.push(message)] *)
Definition warn (result : ValidationResult) (message : string) : ValidationResult :=
  {| isValid := isValid result;
     errors := errors result;
     warnings := warnings result ++ [message] |}.

Definition missingMessage (dim : string) : string :=
  "Missing required dimension: " +:+ dim.
Definition invalidMessage (dim : string) : string :=
  "Invalid value for " +:+ dim +:+ ": must be a positive number".
Definition optionalMessage (dim : string) : string :=
  "Invalid value for optional dimension " +:+ dim +:+
  ": must be a non-negative number".
Definition invalidTypeMessage (type : string) : string :=
  "Invalid profile type: " +:+ type.

(** ** The three passes of [validateDimensions]

    These lines are the same in profileTypes.js and in the copy of the test
    page (which only adds [console.log] calls). *)

(** Body of [for (const dim of required)]. *)
Definition checkRequired (dimensions : Dimensions)
    (result : ValidationResult) (dim : string) : ValidationResult :=
  if negb (has dimensions dim) then
    fail result (missingMessage dim)
  else if negb (typeof_number (read dimensions dim))
          || le (ToNumber (read dimensions dim)) 0 then
    fail result (invalidMessage dim)
  else result.

(** Body of [for (const dim of optional)]. *)
Definition checkOptional (dimensions : Dimensions)
    (result : ValidationResult) (dim : string) : ValidationResult :=
  if has dimensions dim then
    if negb (typeof_number (read dimensions dim))
       || lt (ToNumber (read dimensions dim)) 0 then
      warn result (optionalMessage dim)
    else result
  else result.

(** The [switch (type)] of profile-specific validations; it has no
    [default] case. *)
Definition checkProfile (type : string) (dimensions : Dimensions)
    (result : ValidationResult) : ValidationResult :=
  if bool_decide (type = ROUND_TUBE) then
    if ge (num dimensions "thickness") (num dimensions "diameter" / 2) then
      fail result "Thickness must be less than radius"
    else result
  else if bool_decide (type = SQUARE_TUBE)
          || bool_decide (type = RECTANGULAR_TUBE) then
    if ge (num dimensions "thickness")
          (Math_min (num dimensions "width") (num dimensions "height") / 2) then
      fail result "Thickness must be less than half of the smallest dimension"
    else result
  else if bool_decide (type = ANGLE) then
    if ge (num dimensions "thickness")
          (Math_min (num dimensions "width") (num dimensions "height")) then
      fail result "Thickness must be less than width and height"
    else result
  else result.

(** Everything after the type gate: both loops, then the switch. *)
Definition checkDimensions (type : string) (dimensions : Dimensions)
    (result : ValidationResult) : outcome ValidationResult :=
  required ← iterate (get RequiredDimensions type);
  let result := foldl (checkRequired dimensions) result required in
  optional ← iterate (get OptionalDimensions type);
  let result := foldl (checkOptional dimensions) result optional in
  mret (checkProfile type dimensions result).

Definition freshResult : ValidationResult :=
  {| isValid := true; errors := []; warnings := [] |}.

(** ** profileTypes.js: [ProfileValidator] *)

Module ProfileValidator.

(** A range [{ min, max }] of the limits tables. *)
Record limit : Type := mkLimit { min : float; max : float }.

(** The gate is [if (!ProfileType[type])]: a property lookup on the
    enumeration object by the type string. *)
Definition validateDimensions (type : string) (dimensions : Dimensions)
    : outcome ValidationResult :=
  let result := freshResult in
  if negb (truthy (get ProfileType type)) then
    Returned (fail result (invalidTypeMessage type))
  else
    checkDimensions type dimensions result.

Definition commonLimits : object limit :=
  [ ("length", {| min := 1; max := 1000000 |});
    ("thickness", {| min := 0.1; max := 100 |}) ].

Definition specificLimits : object (object limit) :=
  [ (ROUND_TUBE,
      ("diameter", {| min := 1; max := 1000 |}) :: commonLimits);
    (SQUARE_TUBE,
      ("width", {| min := 1; max := 1000 |}) :: commonLimits);
    (RECTANGULAR_TUBE,
      ("width", {| min := 1; max := 1000 |}) ::
      ("height", {| min := 1; max := 1000 |}) :: commonLimits);
    (ANGLE,
      ("width", {| min := 1; max := 1000 |}) ::
      ("height", {| min := 1; max := 1000 |}) :: commonLimits);
    (CHANNEL,
      ("width", {| min := 1; max := 1000 |}) ::
      ("height", {| min := 1; max := 1000 |}) ::
      ("flange_width", {| min := 1; max := 500 |}) :: commonLimits);
    (I_BEAM,
      ("width", {| min := 1; max := 1000 |}) ::
      ("height", {| min := 1; max := 2000 |}) ::
      ("web_thickness", {| min := 0.1; max := 100 |}) ::
      ("flange_thickness", {| min := 0.1; max := 100 |}) ::
      commonLimits) ].

(** [return specificLimits[type] || {}]: an object or an inherited
    function is truthy and returned as it is; [undefined] gives the
    empty object. *)
Definition getDimensionLimits (type : string) : property (object limit) :=
  match get specificLimits type with
  | Missing => Own []
  | found => found
  end.

End ProfileValidator.

(** ** test/profileTypes.html: the inlined copy of [ProfileValidator]

    The page declares the same tables and the same class, except for the
    gate, which is [if (!Object.values(ProfileType).includes(type))]. *)

Module TestPage.

Definition validateDimensions (type : string) (dimensions : Dimensions)
    : outcome ValidationResult :=
  let result := freshResult in
  if negb (bool_decide (type ∈ values ProfileType)) then
    Returned (fail result (invalidTypeMessage type))
  else
    checkDimensions type dimensions result.

End TestPage.

(** ** profileCalculator.js: [ProfileCalculator] *)

Definition unsupportedMessage (type : string) : string :=
  "Unsupported profile type: " +:+ type.

Module ProfileCalculator.

Local Open Scope float_scope.

Definition calculateArea (type : string) (dimensions : Dimensions)
    : outcome float :=
  if bool_decide (type = ROUND_TUBE) then
    let outerRadius := num dimensions "diameter" / 2 in
    let innerRadius := outerRadius - num dimensions "thickness" in
    mret (Math_PI * (outerRadius * outerRadius - innerRadius * innerRadius))
  else if bool_decide (type = SQUARE_TUBE) then
    let outer := num dimensions "width" * num dimensions "width" in
    let inner := (num dimensions "width" - 2 * num dimensions "thickness")
                 * (num dimensions "width" - 2 * num dimensions "thickness") in
    mret (outer - inner)
  else if bool_decide (type = RECTANGULAR_TUBE) then
    let outer := num dimensions "width" * num dimensions "height" in
    let inner := (num dimensions "width" - 2 * num dimensions "thickness")
                 * (num dimensions "height" - 2 * num dimensions "thickness") in
    mret (outer - inner)
  else if bool_decide (type = ANGLE) then
    mret ((num dimensions "width" + num dimensions "height"
           - num dimensions "thickness") * num dimensions "thickness")
  else if bool_decide (type = CHANNEL) then
    mret (num dimensions "height" * num dimensions "thickness"
          + 2 * num dimensions "flange_width" * num dimensions "thickness")
  else if bool_decide (type = I_BEAM) then
    mret (num dimensions "height" * num dimensions "web_thickness"
          + 2 * num dimensions "width" * num dimensions "flange_thickness")
  else
    Threw (Error (unsupportedMessage type)).

Definition calculateMomentOfInertiaX (type : string) (dimensions : Dimensions)
    : outcome float :=
  if bool_decide (type = ROUND_TUBE) then
    let outerRadius := num dimensions "diameter" / 2 in
    let innerRadius := outerRadius - num dimensions "thickness" in
    mret ((Math_PI / 4) * (Math_pow outerRadius 4 - Math_pow innerRadius 4))
  else if bool_decide (type = SQUARE_TUBE) then
    let outer := Math_pow (num dimensions "width") 4 / 12 in
    let inner :=
      Math_pow (num dimensions "width" - 2 * num dimensions "thickness") 4 / 12 in
    mret (outer - inner)
  else if bool_decide (type = RECTANGULAR_TUBE) then
    let outer :=
      (num dimensions "width" * Math_pow (num dimensions "height") 3) / 12 in
    let inner :=
      ((num dimensions "width" - 2 * num dimensions "thickness")
       * Math_pow (num dimensions "height" - 2 * num dimensions "thickness") 3)
      / 12 in
    mret (outer - inner)
  else if bool_decide (type = ANGLE) then
    (* About the horizontal axis through the centroid *)
    let h := num dimensions "height" in
    let b := num dimensions "width" in
    let t := num dimensions "thickness" in
    A ← calculateArea type dimensions;
    let yc := (h * t * (h / 2) + b * t * t / 2) / A in
    mret ((t * Math_pow h 3 / 3) + (Math_pow t 3 * b / 12)
          + (h * t * Math_pow (h / 2 - yc) 2)
          + (b * t * Math_pow (t / 2 - yc) 2))
  else if bool_decide (type = CHANNEL) then
    let h := num dimensions "height" in
    let b := num dimensions "flange_width" in
    let t := num dimensions "thickness" in
    mret ((t * Math_pow h 3 / 12)
          + 2 * (b * Math_pow t 3 / 12 + b * t * Math_pow (h / 2) 2))
  else if bool_decide (type = I_BEAM) then
    let h := num dimensions "height" in
    let b := num dimensions "width" in
    let tw := num dimensions "web_thickness" in
    let tf := num dimensions "flange_thickness" in
    mret ((tw * Math_pow (h - 2 * tf) 3 / 12)
          + 2 * (b * Math_pow tf 3 / 12
                 + b * tf * Math_pow (h / 2 - tf / 2) 2))
  else
    Threw (Error (unsupportedMessage type)).

Definition calculateSectionModulusX (type : string) (dimensions : Dimensions)
    : outcome float :=
  Ix ← calculateMomentOfInertiaX type dimensions;
  yMax ←
    (if bool_decide (type = ROUND_TUBE) then
       mret (num dimensions "diameter" / 2)
     else if bool_decide (type = SQUARE_TUBE) then
       mret (num dimensions "width" / 2)
     else if bool_decide (type = RECTANGULAR_TUBE)
             || bool_decide (type = CHANNEL)
             || bool_decide (type = I_BEAM) then
       mret (num dimensions "height" / 2)
     else if bool_decide (type = ANGLE) then
       (* For angles, use the maximum distance from neutral axis *)
       A ← calculateArea type dimensions;
       mret (Math_max
               (num dimensions "height"
                - (num dimensions "height" * num dimensions "thickness"
                     * (num dimensions "height" / 2)
                   + num dimensions "width" * num dimensions "thickness"
                     * num dimensions "thickness" / 2) / A)
               ((num dimensions "height" * num dimensions "thickness"
                   * (num dimensions "height" / 2)
                 + num dimensions "width" * num dimensions "thickness"
                   * num dimensions "thickness" / 2) / A))
     else
       Threw (Error (unsupportedMessage type)));
  mret (Ix / yMax).

Definition calculateWeightPerLength (type : string) (dimensions : Dimensions)
    (density : float) : outcome float :=
  area ← calculateArea type dimensions;
  mret (area * density).

Definition calculateRadiusOfGyration (type : string) (dimensions : Dimensions)
    : outcome float :=
  area ← calculateArea type dimensions;
  Ix ← calculateMomentOfInertiaX type dimensions;
  mret (Math_sqrt (Ix / area)).

End ProfileCalculator.

(** ** test/profileCalculator.html: the test data *)

Module testProfiles.
Local Open Scope float_scope.
Definition roundTube : Dimensions :=
  {[ "diameter" := Number 100; "thickness" := Number 5;
     "length" := Number 1000 ]}.
Definition squareTube : Dimensions :=
  {[ "width" := Number 100; "thickness" := Number 5;
     "length" := Number 1000 ]}.
Definition rectangularTube : Dimensions :=
  {[ "width" := Number 100; "height" := Number 150;
     "thickness" := Number 5; "length" := Number 1000 ]}.
Definition angle : Dimensions :=
  {[ "width" := Number 100; "height" := Number 100;
     "thickness" := Number 8; "length" := Number 1000 ]}.
Definition channel : Dimensions :=
  {[ "width" := Number 100; "height" := Number 150;
     "thickness" := Number 8; "flange_width" := Number 50;
     "length" := Number 1000 ]}.
Definition iBeam : Dimensions :=
  {[ "width" := Number 150; "height" := Number 300;
     "web_thickness" := Number 8; "flange_thickness" := Number 12;
     "length" := Number 1000 ]}.
End testProfiles.


(** ** Inputs used below *)

Module inputs.
Local Open Scope float_scope.

(** A square tube whose wall is thicker than half its width. *)
Definition thickSquareTube : Dimensions :=
  {[ "width" := Number 100; "thickness" := Number 60;
     "length" := Number 1000 ]}.

(** A square tube whose wall is thicker than its width. *)
Definition solidSquareTube : Dimensions :=
  {[ "width" := Number 10; "thickness" := Number 20;
     "length" := Number 1 ]}.


(** A round tube with a NaN diameter and an infinite length. *)
Definition nanRoundTube : Dimensions :=
  {[ "diameter" := Number nan; "thickness" := Number 5;
     "length" := Number infinity ]}.
End inputs.

(** The invariant of a validation result under construction. *)
Definition consistent (result : ValidationResult) : Prop :=
  isValid result = true <-> errors result = [].

(** A positive finite number. *)
Definition positive_finite (v : value) : bool :=
  match v with
  | Number x => lt 0 x && lt x infinity
  | _ => false
  end.

(** The required-dimension rule in the words of the specification, for a
    validator [validate]: for a recognized type, an error naming each absent
    required dimension, an error for each required dimension that is present
    without being a positive finite number, and [isValid = false] in both
    cases. *)
Definition reports_required_dimensions
    (validate : string -> Dimensions -> outcome ValidationResult) : Prop :=
  forall (type : string) (dimensions : Dimensions) (required : list string),
    type ∈ values ProfileType ->
    get RequiredDimensions type = Own required ->
    exists result,
      validate type dimensions = Returned result /\
      forall dim, dim ∈ required ->
        (dimensions !! dim = None ->
           missingMessage dim ∈ errors result /\ isValid result = false) /\
        (forall v, dimensions !! dim = Some v -> positive_finite v = false ->
           invalidMessage dim ∈ errors result /\ isValid result = false).

(** The second moment of an angle in the words of the specification: the
    two rectangular legs, of areas [h*t] and [b*t] with centroids at [h/2]
    and [t/2], each contribute their own-centroid inertia plus area times
    squared distance to the centroid [y] of the section. *)
Definition angleInertiaByParallelAxis (b h t : float) : float :=
  let A := ((b + h - t) * t)%float in
  let y := ((h * t * (h / 2) + b * t * (t / 2)) / A)%float in
  ((t * Math_pow h 3 / 12 + h * t * Math_pow (h / 2 - y) 2)
   + (b * Math_pow t 3 / 12 + b * t * Math_pow (t / 2 - y) 2))%float.

(** [assertClose] of test/profileCalculator.html: the assertion passes when
    [Math.abs(actual - expected) > epsilon] is false. *)
Definition assertClose (actual expected : float) : bool :=
  let epsilon := 0.001%float in
  negb (gt (PrimFloat.abs (actual - expected)) epsilon).

(** ** core/config/profiles.js: the configured validation rules

    The file declares the same [ProfileType], [RequiredDimensions] and
    [OptionalDimensions] tables as profileTypes.js, and the geometric rules
    as data: [ProfileValidation[type].rules], a list of checks with their
    messages.  Channel and I-beam have no entry. *)

Module ProfileConfig.

Record rule : Type := mkRule {
  check : Dimensions -> bool;
  message : string
}.

Definition ProfileValidation : object (list rule) :=
  [ (ROUND_TUBE,
      [ {| check := fun dimensions =>
             lt (num dimensions "thickness") (num dimensions "diameter" / 2);
           message := "Thickness must be less than radius" |} ]);
    (SQUARE_TUBE,
      [ {| check := fun dimensions =>
             lt (num dimensions "thickness") (num dimensions "width" / 2);
           message := "Thickness must be less than half of width" |} ]);
    (RECTANGULAR_TUBE,
      [ {| check := fun dimensions =>
             lt (num dimensions "thickness")
                (Math_min (num dimensions "width") (num dimensions "height") / 2);
           message :=
             "Thickness must be less than half of the smallest dimension" |} ]);
    (ANGLE,
      [ {| check := fun dimensions =>
             lt (num dimensions "thickness")
                (Math_min (num dimensions "width") (num dimensions "height"));
           message := "Thickness must be less than width and height" |} ]) ].

End ProfileConfig.

(** ** unitConverter.js: [UnitConverter]

    The event bus handed to the constructor is kept as the log of the
    [emit] calls made on it ([EventBus.emit] runs the subscribers inside a
    try/catch and returns nothing). *)

Module UnitConverter.

Local Open Scope float_scope.

Definition LENGTH : string := "length".
Definition WEIGHT : string := "weight".
Definition AREA : string := "area".
Definition VOLUME : string := "volume".

Definition UnitType : object string :=
  [ ("LENGTH", LENGTH); ("WEIGHT", WEIGHT); ("AREA", AREA); ("VOLUME", VOLUME) ].

Definition METRIC : string := "metric".
Definition IMPERIAL : string := "imperial".

Definition UnitSystem : object string :=
  [ ("METRIC", METRIC); ("IMPERIAL", IMPERIAL) ].

(** Conversion factors (to base units: mm for length, kg for weight) *)
Definition ConversionFactors : object (object float) :=
  [ ("length",
      [ ("mm", 1); ("cm", 10); ("m", 1000); ("in", 25.4); ("ft", 304.8) ]);
    ("weight",
      [ ("kg", 1); ("g", 0.001); ("lb", 0.45359237); ("oz", 0.028349523125) ]);
    ("area",
      [ ("mm2", 1); ("cm2", 100); ("m2", 1000000); ("in2", 645.16);
        ("ft2", 92903.04) ]);
    ("volume",
      [ ("mm3", 1); ("cm3", 1000); ("m3", 1000000000); ("in3", 16387.064);
        ("ft3", 28316846.592) ]) ].

(** Truthiness of [factors[unit]]: a number is truthy unless it is zero or
    NaN, an inherited function is truthy, [undefined] is not. *)
Definition truthy_factor (p : property float) : bool :=
  match p with
  | Own f => negb (PrimFloat.is_zero f || PrimFloat.is_nan f)
  | Inherited _ => true
  | Missing => false
  end.

(** [factors[unit]] as an operand of [*] or [/]: ToNumber of a function (or
    of [Object.prototype]) is NaN, as is ToNumber of [undefined]. *)
Definition factor_operand (p : property float) : float :=
  match p with
  | Own f => f
  | Inherited _ | Missing => nan
  end.

Definition invalidTypeMessage (type : string) : string :=
  "Invalid unit type: " +:+ type.
Definition invalidConversionMessage (fromUnit toUnit : string) : string :=
  "Invalid unit conversion: " +:+ fromUnit +:+ " to " +:+ toUnit.
Definition invalidSystemMessage (system : string) : string :=
  "Invalid unit system: " +:+ system.

(** [convert(value, fromUnit, toUnit, type)], for a number [value].  After
    the gate, [ConversionFactors[type]] is one of the four own tables (lemma
    [convert_factors_found]); the other two branches are never taken. *)
Definition convert (value : float) (fromUnit toUnit type : string)
    : outcome float :=
  if negb (bool_decide (type ∈ values UnitType)) then
    Threw (Error (invalidTypeMessage type))
  else
    match get ConversionFactors type with
    | Own factors =>
        if negb (truthy_factor (get factors fromUnit))
           || negb (truthy_factor (get factors toUnit)) then
          Threw (Error (invalidConversionMessage fromUnit toUnit))
        else
          (* Convert to base unit first, then to target unit *)
          let baseValue := value * factor_operand (get factors fromUnit) in
          mret (baseValue / factor_operand (get factors toUnit))
    | Inherited _ | Missing => Threw TypeError
    end.

(** [result[key] = v] on the object literal [result].  For the key
    [__proto__] the assignment runs the setter inherited from
    [Object.prototype]: no own property is created (a number, a boolean or
    [undefined] is ignored; [null] clears the prototype, which a record of
    own properties does not show). *)
Definition assign (result : Dimensions) (key : string) (v : value)
    : Dimensions :=
  if bool_decide (key = "__proto__") then result else <[key := v]> result.

(** One iteration of the loop of [convertDimensions], for the entry
    [[key, value]]. *)
Definition convertEntry (fromUnit toUnit : string) (result : Dimensions)
    (entry : string * value) : outcome Dimensions :=
  match entry.2 with
  | Number x =>
      converted ← convert x fromUnit toUnit LENGTH;
      mret (assign result entry.1 (Number converted))
  | v => mret (assign result entry.1 v)
  end.

(** The loop over [Object.entries(dimensions)], for the entries in the
    order the engine enumerates them; a throw ends the loop. *)
Definition convertEntries (fromUnit toUnit : string)
    (entries : list (string * value)) : outcome Dimensions :=
  foldl (fun (acc : outcome Dimensions) entry =>
           result ← acc; convertEntry fromUnit toUnit result entry)
        (mret ∅) entries.

(** [convertDimensions(dimensions, fromUnit, toUnit)].  The entries are
    taken in the order of [map_to_list]; the result is the same for every
    order (lemmas [convertEntries_scaled] and [convertEntries_rejected]). *)
Definition convertDimensions (dimensions : Dimensions)
    (fromUnit toUnit : string) : outcome Dimensions :=
  convertEntries fromUnit toUnit (map_to_list dimensions).

(** [Object.keys(ConversionFactors[type] || {})]: a function or
    [Object.prototype] has no enumerable own property. *)
Definition getAvailableUnits (type : string) : list string :=
  match get ConversionFactors type with
  | Own factors => factors.*1
  | Inherited _ | Missing => []
  end.

(** The state of a converter: [this.currentSystem], and the calls
    [this.eventBus.emit(event, { system })] made so far, oldest first. *)
Record converter : Type := mkConverter {
  currentSystem : string;
  emitted : list (string * string)
}.

(** [new UnitConverter(eventBus)] *)
Definition create : converter :=
  {| currentSystem := METRIC; emitted := [] |}.

(** [setUnitSystem(system)]: the new state, or the error thrown before the
    state is touched. *)
Definition setUnitSystem (system : string) (this : converter)
    : outcome converter :=
  if negb (bool_decide (system ∈ values UnitSystem)) then
    Threw (Error (invalidSystemMessage system))
  else
    mret {| currentSystem := system;
            emitted := emitted this ++ [("units:systemChanged", system)] |}.

Definition defaults : object (object string) :=
  [ (METRIC,
      [ (LENGTH, "mm"); (WEIGHT, "kg"); (AREA, "mm2"); (VOLUME, "mm3") ]);
    (IMPERIAL,
      [ (LENGTH, "in"); (WEIGHT, "lb"); (AREA, "in2"); (VOLUME, "in3") ]) ].

(** [getDefaultUnit(type)]: [defaults[this.currentSystem][type]].  With no
    table for the current system the second lookup is on [undefined] and
    throws.  A current system that names a property of [Object.prototype]
    is not modelled ([own] is used, not [get]): [setUnitSystem] never stores
    one. *)
Definition getDefaultUnit (this : converter) (type : string)
    : outcome (property string) :=
  match own defaults (currentSystem this) with
  | Some table => mret (get table type)
  | None => Threw TypeError
  end.

(** The states a converter can be in: the one the constructor builds, and
    those that a call of [setUnitSystem] that returns leads to (a call that
    throws leaves the state as it was). *)
Inductive reachable : converter -> Prop :=
| reachable_create : reachable create
| reachable_setUnitSystem (system : string) (this this' : converter) :
    reachable this ->
    setUnitSystem system this = Returned this' ->
    reachable this'.

End UnitConverter.

(** ** Vocabulary of the properties *)

(** The dimensions the formulas of [ProfileCalculator] read for each
    type. *)
Definition sectionDimensions (type : string) : list string :=
  if bool_decide (type = ROUND_TUBE) then ["diameter"; "thickness"]
  else if bool_decide (type = SQUARE_TUBE) then ["width"; "thickness"]
  else if bool_decide (type = RECTANGULAR_TUBE)
          || bool_decide (type = ANGLE) then ["width"; "height"; "thickness"]
  else if bool_decide (type = CHANNEL) then
    ["height"; "thickness"; "flange_width"]
  else if bool_decide (type = I_BEAM) then
    ["width"; "height"; "web_thickness"; "flange_thickness"]
  else [].

(** The bound below which the thickness must stay, for the three types
    whose rule is the same in the switch of [validateDimensions] and in the
    [ProfileValidation] table: half the diameter for a round tube, half the
    smaller side for a rectangular tube, the smaller leg for an angle.  The
    other types have no such bound. *)
Definition thicknessBound (type : string) (dimensions : Dimensions) : float :=
  if bool_decide (type = ROUND_TUBE) then
    (num dimensions "diameter" / 2)%float
  else if bool_decide (type = RECTANGULAR_TUBE) then
    (Math_min (num dimensions "width") (num dimensions "height") / 2)%float
  else if bool_decide (type = ANGLE) then
    Math_min (num dimensions "width") (num dimensions "height")
  else nan.

(** The first character of a message; it tells the kinds of error apart. *)
Definition initial (s : string) : option Ascii.ascii :=
  match s with
  | String c _ => Some c
  | EmptyString => None
  end.

(** What unit conversion does to one value: a number is scaled, anything
    else is kept. *)
Definition scaled (fromFactor toFactor : float) (v : value) : value :=
  match v with
  | Number x => Number (x * fromFactor / toFactor)%float
  | _ => v
  end.

(** * Properties *)

Import ProfileCalculator.

(** ** The registry tables *)

(** The six type strings, in the order of the enumeration. *)
Lemma values_ProfileType :
  values ProfileType =
  [ROUND_TUBE; SQUARE_TUBE; RECTANGULAR_TUBE; ANGLE; CHANNEL; I_BEAM].
Proof. reflexivity. Qed.

(** Closed decidable facts, by evaluation. *)
Ltac decide_closed :=
  solve [ apply (bool_decide_unpack _); try (vm_compute; exact I) ].

Ltac each_profile_type H :=
  rewrite values_ProfileType in H;
  repeat (apply elem_of_cons in H as [-> | H]);
  [ .. | apply elem_of_nil in H; destruct H ].

Ltac each_inherited H :=
  unfold ObjectPrototype in H;
  repeat (apply elem_of_cons in H as [-> | H]);
  [ .. | apply elem_of_nil in H; destruct H ].

(** No dimension name of the tables is a property of [Object.prototype]. *)
Lemma registry_names_not_inherited :
  Forall (fun entry : string * list string =>
            Forall (fun dim => dim ∉ ObjectPrototype) entry.2)
         (RequiredDimensions ++ OptionalDimensions).
Proof.
  decide_closed.
Qed.

(** A type string outside the enumeration differs from each of its values. *)
Lemma not_profile_type (type : string) :
  type ∉ values ProfileType ->
  type ≠ ROUND_TUBE /\ type ≠ SQUARE_TUBE /\ type ≠ RECTANGULAR_TUBE /\
  type ≠ ANGLE /\ type ≠ CHANNEL /\ type ≠ I_BEAM.
Proof.
  rewrite values_ProfileType. intros H.
  repeat split; intros ->; apply H;
    repeat first [ apply list_elem_of_here | apply list_elem_of_further ].
Qed.

(** ** The gate of profileTypes.js *)

(** [ProfileType[type]] is [undefined] for each of the six type strings:
    the enumeration object is keyed by the constant names. *)
Lemma enumeration_lookup_by_value (type : string) :
  type ∈ values ProfileType -> get ProfileType type = Missing.
Proof. intros H. each_profile_type H; reflexivity. Qed.

(** So the module's validator rejects every type of the enumeration. *)
Lemma module_gate_rejects_profile_types (type : string) (dimensions : Dimensions) :
  type ∈ values ProfileType ->
  ProfileValidator.validateDimensions type dimensions
  = Returned (fail freshResult (invalidTypeMessage type)).
Proof.
  intros H. unfold ProfileValidator.validateDimensions.
  rewrite enumeration_lookup_by_value by assumption. reflexivity.
Qed.

(** A type string that passes the gate names an own property of the
    enumeration or a property of [Object.prototype]; neither has an array in
    [RequiredDimensions], and the for-of loop throws. *)
Lemma module_gate_passed_throws (type : string) (dimensions : Dimensions) :
  truthy (get ProfileType type) = true ->
  ProfileValidator.validateDimensions type dimensions = Threw TypeError.
Proof.
  intros Hgate. unfold ProfileValidator.validateDimensions.
  rewrite Hgate. cbn [negb]. revert Hgate.
  unfold get at 1. cbn [own ProfileType].
  repeat case_bool_decide; subst; try reflexivity.
  - match goal with H : _ ∈ ObjectPrototype |- _ => each_inherited H end;
      reflexivity.
  - discriminate.
Qed.

(** The module's validator has two behaviours only. *)
Lemma module_validateDimensions_cases (type : string) (dimensions : Dimensions) :
  ProfileValidator.validateDimensions type dimensions
  = Returned (fail freshResult (invalidTypeMessage type))
  \/ ProfileValidator.validateDimensions type dimensions = Threw TypeError.
Proof.
  destruct (truthy (get ProfileType type)) eqn:Hgate.
  - right. by apply module_gate_passed_throws.
  - left. unfold ProfileValidator.validateDimensions. by rewrite Hgate.
Qed.

(** The gate of the test page admits exactly the six type strings. *)
Lemma page_gate_admits (type : string) (dimensions : Dimensions) :
  type ∈ values ProfileType ->
  TestPage.validateDimensions type dimensions
  = checkDimensions type dimensions freshResult.
Proof.
  intros H. unfold TestPage.validateDimensions.
  rewrite bool_decide_eq_true_2 by assumption. reflexivity.
Qed.

Lemma page_gate_rejects (type : string) (dimensions : Dimensions) :
  type ∉ values ProfileType ->
  TestPage.validateDimensions type dimensions
  = Returned (fail freshResult (invalidTypeMessage type)).
Proof.
  intros H. unfold TestPage.validateDimensions.
  rewrite bool_decide_eq_false_2 by assumption. reflexivity.
Qed.

(** Past the gate, a type of the enumeration has its two arrays and the
    checks return. *)
Lemma checkDimensions_returns (type : string) (dimensions : Dimensions)
    (result : ValidationResult) :
  type ∈ values ProfileType ->
  exists required optional,
    get RequiredDimensions type = Own required /\
    get OptionalDimensions type = Own optional /\
    checkDimensions type dimensions result
    = Returned (checkProfile type dimensions
                  (foldl (checkOptional dimensions)
                     (foldl (checkRequired dimensions) result required)
                     optional)).
Proof.
  intros H. each_profile_type H; do 2 eexists; repeat split; reflexivity.
Qed.

(** ** Validation results: [isValid] against [errors] *)

Lemma freshResult_consistent : consistent freshResult.
Proof. by split. Qed.

(** An appended error clears [isValid], whatever the result was. *)
Lemma fail_consistent (result : ValidationResult) (message : string) :
  consistent (fail result message).
Proof.
  split; cbn; [discriminate |].
  intros H. by apply app_eq_nil in H as [_ ?].
Qed.

(** A warning touches neither [isValid] nor [errors]. *)
Lemma warn_consistent (result : ValidationResult) (message : string) :
  consistent result -> consistent (warn result message).
Proof. done. Qed.

Lemma warn_isValid (result : ValidationResult) (message : string) :
  isValid (warn result message) = isValid result /\
  errors (warn result message) = errors result.
Proof. done. Qed.

Create HintDb validation.
#[export] Hint Resolve freshResult_consistent fail_consistent warn_consistent
  : validation.

Section Passes.

Variable dimensions : Dimensions.

Lemma checkRequired_consistent (result : ValidationResult) (dim : string) :
  consistent result -> consistent (checkRequired dimensions result dim).
Proof.
  intros H. unfold checkRequired.
  repeat case_match; auto with validation.
Qed.

Lemma checkOptional_consistent (result : ValidationResult) (dim : string) :
  consistent result -> consistent (checkOptional dimensions result dim).
Proof.
  intros H. unfold checkOptional.
  repeat case_match; auto with validation.
Qed.

Lemma checkProfile_consistent (type : string) (result : ValidationResult) :
  consistent result -> consistent (checkProfile type dimensions result).
Proof.
  intros H. unfold checkProfile.
  repeat case_match; auto with validation.
Qed.

(** A loop keeps what each of its iterations keeps. *)
Lemma foldl_consistent (step : ValidationResult -> string -> ValidationResult)
    (dims : list string) :
  (forall result dim, consistent result -> consistent (step result dim)) ->
  forall result, consistent result -> consistent (foldl step result dims).
Proof.
  intros Hstep. induction dims as [| dim dims IH]; intros result H; cbn.
  - assumption.
  - apply IH, Hstep, H.
Qed.

(** The optional pass only warns. *)
Lemma checkOptional_errors (result : ValidationResult) (optional : list string) :
  isValid (foldl (checkOptional dimensions) result optional) = isValid result /\
  errors (foldl (checkOptional dimensions) result optional) = errors result.
Proof.
  revert result. induction optional as [| dim optional IH]; intros result; cbn.
  - done.
  - destruct (IH (checkOptional dimensions result dim)) as [-> ->].
    unfold checkOptional. repeat case_match; done.
Qed.

Lemma checkDimensions_consistent (type : string) (result result' : ValidationResult) :
  consistent result ->
  checkDimensions type dimensions result = Returned result' ->
  consistent result'.
Proof.
  intros H. unfold checkDimensions.
  destruct (iterate (get RequiredDimensions type)) as [required |]; [| done].
  destruct (iterate (get OptionalDimensions type)) as [optional |]; [| done].
  cbn. intros [= <-].
  apply checkProfile_consistent.
  apply foldl_consistent; [apply checkOptional_consistent |].
  apply foldl_consistent; [apply checkRequired_consistent |].
  assumption.
Qed.

End Passes.

(** C10: in every result returned by [validateDimensions], by the module's
    validator as by the copy of the test page, [isValid] is true exactly when
    the [errors] list is empty: the result starts valid with no error, every
    appended error clears [isValid], and the optional-dimension pass, which
    only appends warnings, changes neither [isValid] nor [errors]. *)
Theorem validateDimensions_isValid_iff_no_errors :
  (forall (type : string) (dimensions : Dimensions) (result : ValidationResult),
     ProfileValidator.validateDimensions type dimensions = Returned result \/
     TestPage.validateDimensions type dimensions = Returned result ->
     isValid result = true <-> errors result = []) /\
  (isValid freshResult = true /\ errors freshResult = []) /\
  (forall result message,
     isValid (fail result message) = false /\
     errors (fail result message) <> []) /\
  (forall dimensions result optional,
     isValid (foldl (checkOptional dimensions) result optional) = isValid result /\
     errors (foldl (checkOptional dimensions) result optional) = errors result).
Proof.
  split; [| split; [| split]].
  - intros type dimensions result.
    unfold ProfileValidator.validateDimensions, TestPage.validateDimensions.
    intros [Hr | Hr]; revert Hr; case_match; intros Hr;
      first [ injection Hr as <-; apply fail_consistent
            | by eapply checkDimensions_consistent, Hr ].
  - done.
  - intros result message. split; [done |].
    cbn. intros H. by apply app_eq_nil in H as [_ ?].
  - intros dimensions result optional. apply checkOptional_errors.
Qed.

Lemma validateDimensions_isValid_iff_no_errors_witness :
  (isValid (fail freshResult (invalidTypeMessage "invalid_type")) = true
   <-> errors (fail freshResult (invalidTypeMessage "invalid_type")) = [])
  /\ (isValid freshResult = true <-> errors freshResult = []).
Proof.
  split.
  - apply (proj1 validateDimensions_isValid_iff_no_errors "invalid_type" ∅).
    left. reflexivity.
  - apply (proj1 validateDimensions_isValid_iff_no_errors
             ROUND_TUBE testProfiles.roundTube).
    right. reflexivity.
Defined.

(** ** Comparisons with NaN *)

Lemma Prim2SF_nan : Prim2SF nan = S754_nan.
Proof. reflexivity. Qed.

Lemma le_nan_l (x : float) : le nan x = false.
Proof.
  unfold le. rewrite leb_spec, Prim2SF_nan. reflexivity.
Qed.

Lemma Math_min_nan_r (x : float) : Math_min x nan = nan.
Proof.
  unfold Math_min. replace (PrimFloat.is_nan nan) with true by reflexivity.
  by rewrite orb_true_r.
Qed.

(** ** The type gate, at the inputs of the test page *)

(** C1: the module's validator takes the invalid-type path for the
    recognized type ['round_tube'] (the test page's copy, with its
    [Object.values(ProfileType).includes(type)] gate, accepts the same call),
    and does not take it for ['ROUND_TUBE'], which is no type string: there
    the for-of loop over [RequiredDimensions[type]] throws. *)
Theorem module_gate_rejects_round_tube :
  ROUND_TUBE ∈ values ProfileType /\
  ProfileValidator.validateDimensions ROUND_TUBE testProfiles.roundTube
  = Returned {| isValid := false;
                errors := ["Invalid profile type: round_tube"];
                warnings := [] |} /\
  TestPage.validateDimensions ROUND_TUBE testProfiles.roundTube
  = Returned {| isValid := true; errors := []; warnings := [] |} /\
  ("ROUND_TUBE" ∉ values ProfileType) /\
  ProfileValidator.validateDimensions "ROUND_TUBE" testProfiles.roundTube
  = Threw TypeError.
Proof.
  repeat split; try reflexivity.
  - rewrite values_ProfileType. by apply elem_of_cons; left.
  - rewrite values_ProfileType. intros H.
    repeat (apply elem_of_cons in H as [H | H]; [discriminate |]).
    by apply elem_of_nil in H.
Qed.

(** ** The square-tube thickness rule *)

(** Without a [height] entry, [Math.min(width, height)] is NaN and the
    comparison of the shared square/rectangular case is false: no thickness
    error is ever added for a square tube. *)
Lemma checkProfile_square_tube_without_height
    (dimensions : Dimensions) (result : ValidationResult) :
  dimensions !! "height" = None ->
  checkProfile SQUARE_TUBE dimensions result = result.
Proof.
  intros Hheight. unfold checkProfile.
  rewrite bool_decide_eq_false_2 by discriminate.
  rewrite bool_decide_eq_true_2 by reflexivity. cbn [orb].
  unfold num at 3, read. rewrite Hheight. cbn [default ToNumber].
  rewrite Math_min_nan_r.
  replace (nan / 2)%float with nan by reflexivity.
  unfold ge. fold (le nan (num dimensions "thickness")).
  by rewrite le_nan_l.
Qed.

(** C3: for the square tube [{width: 100, thickness: 60, length: 1000}],
    where [thickness >= width / 2] and there is no [height] entry, the
    module's validator returns the invalid-type error and no thickness
    error, and the test page's copy, past the gate, returns a valid result
    with no error at all. *)
Theorem square_tube_thickness_not_reported :
  ge 60 (100 / 2) = true /\
  inputs.thickSquareTube !! "height" = None /\
  ProfileValidator.validateDimensions SQUARE_TUBE inputs.thickSquareTube
  = Returned {| isValid := false;
                errors := ["Invalid profile type: square_tube"];
                warnings := [] |} /\
  TestPage.validateDimensions SQUARE_TUBE inputs.thickSquareTube
  = Returned {| isValid := true; errors := []; warnings := [] |}.
Proof. repeat split; reflexivity. Qed.

(** ** Area of validated dimensions *)

(** The module's validator never returns a valid result for a type of the
    enumeration. *)
Lemma module_never_valid (type : string) (dimensions : Dimensions)
    (result : ValidationResult) :
  type ∈ values ProfileType ->
  ProfileValidator.validateDimensions type dimensions = Returned result ->
  isValid result = false.
Proof.
  intros H. rewrite module_gate_rejects_profile_types by assumption.
  by intros [= <-].
Qed.

(** With the module's validator the premise "the dimensions pass
    validation" is therefore never met.  With the test page's copy it is:
    the square tube [{width: 10, thickness: 20, length: 1}] passes that
    validator, and its area is -800; the module's validator rejects it, as it
    rejects every call, with the invalid-type error. *)
Lemma valid_square_tube_with_negative_area :
  TestPage.validateDimensions SQUARE_TUBE inputs.solidSquareTube
  = Returned {| isValid := true; errors := []; warnings := [] |} /\
  calculateArea SQUARE_TUBE inputs.solidSquareTube = Returned (-800)%float /\
  gt (-800) 0 = false /\
  ProfileValidator.validateDimensions SQUARE_TUBE inputs.solidSquareTube
  = Returned {| isValid := false;
                errors := ["Invalid profile type: square_tube"];
                warnings := [] |}.
Proof. repeat split; reflexivity. Qed.

(** ** The required-dimension pass *)

Section Required.

Variable dimensions : Dimensions.

Lemma checkRequired_missing (result : ValidationResult) (dim : string) :
  dimensions !! dim = None ->
  checkRequired dimensions result dim = fail result (missingMessage dim).
Proof.
  intros H. unfold checkRequired, has. rewrite H.
  rewrite bool_decide_eq_false_2; [done |]. by intros [? ?].
Qed.

Lemma checkRequired_present (result : ValidationResult) (dim : string) (v : value) :
  dimensions !! dim = Some v ->
  checkRequired dimensions result dim
  = if negb (typeof_number v) || le (ToNumber v) 0
    then fail result (invalidMessage dim) else result.
Proof.
  intros H. unfold checkRequired, has, read. rewrite H.
  rewrite bool_decide_eq_true_2; [done |]. by eexists.
Qed.

(** Errors are only ever appended. *)
Lemma fail_reports (result : ValidationResult) (message : string) :
  message ∈ errors (fail result message).
Proof. cbn. apply elem_of_app. right. by apply list_elem_of_singleton. Qed.

Lemma fail_keeps (result : ValidationResult) (message message' : string) :
  message ∈ errors result -> message ∈ errors (fail result message').
Proof. intros H. cbn. apply elem_of_app. by left. Qed.

Lemma checkRequired_keeps (result : ValidationResult) (dim message : string) :
  message ∈ errors result ->
  message ∈ errors (checkRequired dimensions result dim).
Proof.
  intros H. unfold checkRequired.
  repeat case_match; auto using fail_keeps.
Qed.

Lemma checkProfile_keeps (type : string) (result : ValidationResult)
    (message : string) :
  message ∈ errors result ->
  message ∈ errors (checkProfile type dimensions result).
Proof.
  intros H. unfold checkProfile.
  repeat case_match; auto using fail_keeps.
Qed.

Lemma foldl_checkRequired_keeps (required : list string)
    (result : ValidationResult) (message : string) :
  message ∈ errors result ->
  message ∈ errors (foldl (checkRequired dimensions) result required).
Proof.
  revert result. induction required as [| dim required IH]; intros result H.
  - assumption.
  - cbn. by apply IH, checkRequired_keeps.
Qed.

(** The loop visits every required dimension: the error of one dimension
    does not keep the next from being checked. *)
Lemma foldl_checkRequired_reports (required : list string)
    (result : ValidationResult) (dim message : string) :
  dim ∈ required ->
  (forall result', message ∈ errors (checkRequired dimensions result' dim)) ->
  message ∈ errors (foldl (checkRequired dimensions) result required).
Proof.
  intros Hin Hstep. revert result.
  induction required as [| dim' required IH]; intros result.
  - by apply elem_of_nil in Hin.
  - cbn. apply elem_of_cons in Hin as [<- | Hin].
    + apply foldl_checkRequired_keeps, Hstep.
    + by apply IH.
Qed.

(** An error in a consistent result means [isValid = false]. *)
Lemma consistent_error (result : ValidationResult) (message : string) :
  consistent result -> message ∈ errors result -> isValid result = false.
Proof.
  intros [Hvalid _] Hin. destruct (isValid result); [| done].
  rewrite Hvalid in Hin by done. by apply elem_of_nil in Hin.
Qed.

End Required.

(** Neither validator reports the required dimensions as the specification
    words it: at the round tube with a NaN diameter and an infinite length
    neither result holds an error for [diameter] or [length]. *)
Lemma nan_and_infinity_not_reported :
  ~ reports_required_dimensions ProfileValidator.validateDimensions /\
  ~ reports_required_dimensions TestPage.validateDimensions.
Proof.
  split; intros Hclaim;
    (destruct (Hclaim ROUND_TUBE inputs.nanRoundTube
                 ["diameter"; "thickness"; "length"])
       as (result & Hresult & Hdims);
     [ rewrite values_ProfileType; by apply elem_of_cons; left
     | reflexivity | ]);
    injection Hresult as <-;
    (destruct (Hdims "diameter") as [_ Hnan]; [by apply elem_of_cons; left |]);
    (destruct (Hnan (Number nan)) as [Hin _]; [reflexivity | reflexivity |]);
    cbn in Hin.
  - apply list_elem_of_singleton in Hin. discriminate.
  - by apply elem_of_nil in Hin.
Qed.

(** What the required-dimension loop does once the type gate is passed --
    so for every recognized type in the test page's copy of the validator:
    the result holds, for every required dimension, a "Missing required
    dimension" error when it is absent and an "Invalid value" error when it
    is present with a value that is not of type number or is [<= 0], and
    [isValid] is false in both cases; a NaN or [+Infinity] value passes this
    check unreported. *)
Lemma required_dimensions_reported (type : string) (dimensions : Dimensions) :
  type ∈ values ProfileType ->
  exists required result,
    get RequiredDimensions type = Own required /\
    checkDimensions type dimensions freshResult = Returned result /\
    TestPage.validateDimensions type dimensions = Returned result /\
    (forall dim, dim ∈ required ->
       (dimensions !! dim = None ->
          missingMessage dim ∈ errors result /\ isValid result = false) /\
       (forall v, dimensions !! dim = Some v ->
          typeof_number v = false \/ le (ToNumber v) 0 = true ->
          invalidMessage dim ∈ errors result /\ isValid result = false)) /\
    (forall dim current,
       dimensions !! dim = Some (Number nan) \/
       dimensions !! dim = Some (Number infinity) ->
       checkRequired dimensions current dim = current).
Proof.
  intros Htype.
  destruct (checkDimensions_returns type dimensions freshResult Htype)
    as (required & optional & Hrequired & _ & Hreturned).
  exists required. eexists. split; [exact Hrequired |].
  split; [exact Hreturned |].
  split; [by rewrite page_gate_admits |].
  assert (Hconsistent : consistent
            (checkProfile type dimensions
               (foldl (checkOptional dimensions)
                  (foldl (checkRequired dimensions) freshResult required)
                  optional))).
  { eapply checkDimensions_consistent;
      [apply freshResult_consistent | exact Hreturned]. }
  assert (Hreport : forall dim message, dim ∈ required ->
            (forall current,
               message ∈ errors (checkRequired dimensions current dim)) ->
            message ∈ errors
              (checkProfile type dimensions
                 (foldl (checkOptional dimensions)
                    (foldl (checkRequired dimensions) freshResult required)
                    optional))).
  { intros dim message Hin Hstep. apply checkProfile_keeps.
    destruct (checkOptional_errors dimensions
                (foldl (checkRequired dimensions) freshResult required)
                optional) as [_ ->].
    by apply foldl_checkRequired_reports with dim. }
  split.
  - intros dim Hin. split.
    + intros Habsent.
      assert (missingMessage dim ∈ errors
                (checkProfile type dimensions
                   (foldl (checkOptional dimensions)
                      (foldl (checkRequired dimensions) freshResult required)
                      optional))) as Herror.
      { apply Hreport with dim; [done |]. intros current.
        rewrite checkRequired_missing by done. apply fail_reports. }
      split; [done | by eapply consistent_error].
    + intros v Hpresent Hbad.
      assert (invalidMessage dim ∈ errors
                (checkProfile type dimensions
                   (foldl (checkOptional dimensions)
                      (foldl (checkRequired dimensions) freshResult required)
                      optional))) as Herror.
      { apply Hreport with dim; [done |]. intros current.
        rewrite (checkRequired_present _ _ _ _ Hpresent).
        replace (negb (typeof_number v) || le (ToNumber v) 0) with true.
        - apply fail_reports.
        - destruct Hbad as [-> | ->]; [done | by rewrite orb_true_r]. }
      split; [done | by eapply consistent_error].
  - intros dim current [Hnan | Hinf].
    + by rewrite (checkRequired_present _ _ _ _ Hnan).
    + by rewrite (checkRequired_present _ _ _ _ Hinf).
Qed.

Lemma required_dimensions_reported_witness :
  exists required result,
    get RequiredDimensions SQUARE_TUBE = Own required /\
    checkDimensions SQUARE_TUBE {[ "width" := Null ]} freshResult
    = Returned result /\
    TestPage.validateDimensions SQUARE_TUBE {[ "width" := Null ]}
    = Returned result /\
    (forall dim, dim ∈ required ->
       (({[ "width" := Null ]} : Dimensions) !! dim = None ->
          missingMessage dim ∈ errors result /\ isValid result = false) /\
       (forall v, ({[ "width" := Null ]} : Dimensions) !! dim = Some v ->
          typeof_number v = false \/ le (ToNumber v) 0 = true ->
          invalidMessage dim ∈ errors result /\ isValid result = false)) /\
    (forall dim current,
       ({[ "width" := Null ]} : Dimensions) !! dim = Some (Number nan) \/
       ({[ "width" := Null ]} : Dimensions) !! dim = Some (Number infinity) ->
       checkRequired {[ "width" := Null ]} current dim = current).
Proof.
  apply (required_dimensions_reported SQUARE_TUBE {[ "width" := Null ]}).
  rewrite values_ProfileType. apply elem_of_cons. right.
  apply elem_of_cons. left. reflexivity.
Defined.

(** C6: the required dimensions are not reported as the claim says.  For
    the recognized type ['round_tube'] the module's validator returns the
    invalid-type error alone, whether the required dimensions are all absent
    or hold a NaN and an infinite value: its loop over the required
    dimensions is never reached.  The test page's copy, whose gate admits the
    type, names each absent dimension, but accepts the NaN diameter and the
    infinite length, neither of them a positive finite number, without an
    error. *)
Theorem required_dimensions_not_reported :
  ROUND_TUBE ∈ values ProfileType /\
  get RequiredDimensions ROUND_TUBE = Own ["diameter"; "thickness"; "length"] /\
  ProfileValidator.validateDimensions ROUND_TUBE (∅ : Dimensions)
  = Returned {| isValid := false;
                errors := ["Invalid profile type: round_tube"];
                warnings := [] |} /\
  TestPage.validateDimensions ROUND_TUBE (∅ : Dimensions)
  = Returned {| isValid := false;
                errors := ["Missing required dimension: diameter";
                           "Missing required dimension: thickness";
                           "Missing required dimension: length"];
                warnings := [] |} /\
  positive_finite (Number nan) = false /\
  positive_finite (Number infinity) = false /\
  ProfileValidator.validateDimensions ROUND_TUBE inputs.nanRoundTube
  = Returned {| isValid := false;
                errors := ["Invalid profile type: round_tube"];
                warnings := [] |} /\
  TestPage.validateDimensions ROUND_TUBE inputs.nanRoundTube
  = Returned {| isValid := true; errors := []; warnings := [] |}.
Proof.
  split; [decide_closed |].
  repeat split; reflexivity.
Qed.

(** ** The calculator and unsupported types *)

Ltac not_a_profile_type H :=
  destruct (not_profile_type _ H) as (? & ? & ? & ? & ? & ?);
  rewrite ?bool_decide_eq_false_2 by congruence.

Lemma calculateArea_unsupported (type : string) (dimensions : Dimensions) :
  type ∉ values ProfileType ->
  calculateArea type dimensions = Threw (Error (unsupportedMessage type)).
Proof. intros H. unfold calculateArea. by not_a_profile_type H. Qed.

Lemma calculateMomentOfInertiaX_unsupported (type : string) (dimensions : Dimensions) :
  type ∉ values ProfileType ->
  calculateMomentOfInertiaX type dimensions
  = Threw (Error (unsupportedMessage type)).
Proof. intros H. unfold calculateMomentOfInertiaX. by not_a_profile_type H. Qed.

Lemma calculateArea_supported (type : string) (dimensions : Dimensions) :
  type ∈ values ProfileType ->
  exists area, calculateArea type dimensions = Returned area.
Proof. intros H. each_profile_type H; eexists; reflexivity. Qed.

Lemma calculateMomentOfInertiaX_supported (type : string) (dimensions : Dimensions) :
  type ∈ values ProfileType ->
  exists Ix, calculateMomentOfInertiaX type dimensions = Returned Ix.
Proof. intros H. each_profile_type H; eexists; reflexivity. Qed.

(** C5: each of the five calculator operations, called with a type outside
    the six values of the enumeration, throws the error "Unsupported profile
    type: <type>" and returns no number; called with one of the six values,
    each returns a number. *)
Theorem calculator_rejects_exactly_unsupported_types
    (type : string) (dimensions : Dimensions) (density : float) :
  (type ∉ values ProfileType ->
     calculateArea type dimensions = Threw (Error (unsupportedMessage type)) /\
     calculateMomentOfInertiaX type dimensions
     = Threw (Error (unsupportedMessage type)) /\
     calculateSectionModulusX type dimensions
     = Threw (Error (unsupportedMessage type)) /\
     calculateWeightPerLength type dimensions density
     = Threw (Error (unsupportedMessage type)) /\
     calculateRadiusOfGyration type dimensions
     = Threw (Error (unsupportedMessage type))) /\
  (type ∈ values ProfileType ->
     (exists area, calculateArea type dimensions = Returned area) /\
     (exists Ix, calculateMomentOfInertiaX type dimensions = Returned Ix) /\
     (exists Sx, calculateSectionModulusX type dimensions = Returned Sx) /\
     (exists weight,
        calculateWeightPerLength type dimensions density = Returned weight) /\
     (exists radius, calculateRadiusOfGyration type dimensions = Returned radius)).
Proof.
  split; intros H.
  - unfold calculateSectionModulusX, calculateWeightPerLength,
      calculateRadiusOfGyration.
    rewrite calculateArea_unsupported, calculateMomentOfInertiaX_unsupported
      by assumption.
    done.
  - split; [by apply calculateArea_supported |].
    split; [by apply calculateMomentOfInertiaX_supported |].
    each_profile_type H; repeat split; eexists; reflexivity.
Qed.

Lemma calculator_rejects_exactly_unsupported_types_witness :
  (calculateArea "invalid_type" testProfiles.roundTube
   = Threw (Error "Unsupported profile type: invalid_type") /\
   calculateMomentOfInertiaX "invalid_type" testProfiles.roundTube
   = Threw (Error "Unsupported profile type: invalid_type") /\
   calculateSectionModulusX "invalid_type" testProfiles.roundTube
   = Threw (Error "Unsupported profile type: invalid_type") /\
   calculateWeightPerLength "invalid_type" testProfiles.roundTube 7850
   = Threw (Error "Unsupported profile type: invalid_type") /\
   calculateRadiusOfGyration "invalid_type" testProfiles.roundTube
   = Threw (Error "Unsupported profile type: invalid_type")) /\
  ((exists area, calculateArea ANGLE testProfiles.angle = Returned area) /\
   (exists Ix, calculateMomentOfInertiaX ANGLE testProfiles.angle = Returned Ix) /\
   (exists Sx, calculateSectionModulusX ANGLE testProfiles.angle = Returned Sx) /\
   (exists weight,
      calculateWeightPerLength ANGLE testProfiles.angle 7850 = Returned weight) /\
   (exists radius,
      calculateRadiusOfGyration ANGLE testProfiles.angle = Returned radius)).
Proof.
  split.
  - apply (calculator_rejects_exactly_unsupported_types
             "invalid_type" testProfiles.roundTube 7850).
    decide_closed.
  - apply (calculator_rejects_exactly_unsupported_types
             ANGLE testProfiles.angle 7850).
    decide_closed.
Defined.

(** ** The angle's moment of inertia *)

(** What the code computes for an angle, term by term. *)
Lemma angle_inertia_terms (dimensions : Dimensions) :
  let h := num dimensions "height" in
  let b := num dimensions "width" in
  let t := num dimensions "thickness" in
  let A := ((b + h - t) * t)%float in
  let yc := ((h * t * (h / 2) + b * t * t / 2) / A)%float in
  calculateMomentOfInertiaX ANGLE dimensions
  = Returned (t * Math_pow h 3 / 3 + Math_pow t 3 * b / 12
              + h * t * Math_pow (h / 2 - yc) 2
              + b * t * Math_pow (t / 2 - yc) 2)%float.
Proof. reflexivity. Qed.

(** C2: for the angle of the test page (width 100, height 100, thickness 8)
    the calculator returns 3519358.333..., while the parallel-axis
    decomposition of the two legs gives 1519358.333...: the web term is
    [t*h^3/3] in the code, where the own-centroid inertia of the leg is
    [t*h^3/12], and the results differ by [t*h^3/4 = 2000000] up to
    rounding. *)
Theorem angle_inertia_is_not_the_parallel_axis_sum :
  calculateMomentOfInertiaX ANGLE testProfiles.angle
  = Returned 3519358.333333333%float /\
  angleInertiaByParallelAxis 100 100 8 = 1519358.3333333333%float /\
  (3519358.333333333 - 1519358.3333333333 = 1999999.9999999998)%float /\
  assertClose 3519358.333333333 1519358.3333333333 = false.
Proof. repeat split; reflexivity. Qed.

(** ** Weight per unit length *)

(** The test page calls the function with the dimensions left in
    millimetres and the density in kg/m^3: the calculator then returns
    11714213.607..., the area in square millimetres times the density, which
    is not within the test tolerance of 11.71471 (nor, times 1000, of
    11714.71, the assertion of the test page). *)
Lemma round_tube_weight_is_not_11_71471 :
  calculateWeightPerLength ROUND_TUBE testProfiles.roundTube 7850
  = Returned 11714213.607072942%float /\
  assertClose 11714213.607072942 11.71471 = false /\
  assertClose (11714213.607072942 * 1000) 11714.71 = false /\
  gt 11714213.607072942 11714213 = true.
Proof. repeat split; reflexivity. Qed.



(** ** Area of the I-beam *)

(** For type ['i_beam'], [calculateArea] returns
    [height * web_thickness + 2 * width * flange_thickness], the web taken
    over the full height; for width 150, height 300, web thickness 8 and
    flange thickness 12 that is [300*8 + 2*150*12 = 6000]. *)
Lemma i_beam_area (dimensions : Dimensions) :
  calculateArea I_BEAM dimensions
  = Returned (num dimensions "height" * num dimensions "web_thickness"
              + 2 * num dimensions "width" * num dimensions "flange_thickness")%float
  /\ calculateArea I_BEAM testProfiles.iBeam = Returned 6000%float
  /\ (300 * 8 + 2 * 150 * 12 = 6000)%float.
Proof. repeat split; reflexivity. Qed.

(** The inertia branch of the same profile takes the web between the
    flanges, over [height - 2 * flange_thickness]. *)
Lemma i_beam_inertia_terms (dimensions : Dimensions) :
  let h := num dimensions "height" in
  let b := num dimensions "width" in
  let tw := num dimensions "web_thickness" in
  let tf := num dimensions "flange_thickness" in
  calculateMomentOfInertiaX I_BEAM dimensions
  = Returned (tw * Math_pow (h - 2 * tf) 3 / 12
              + 2 * (b * Math_pow tf 3 / 12
                     + b * tf * Math_pow (h / 2 - tf / 2) 2))%float.
Proof. reflexivity. Qed.

(** C8: for the I-beam of the test page (width 150, height 300, web
    thickness 8, flange thickness 12) the calculator returns 6000, not the
    4800 that the claim states and the test page asserts.  The area branch
    counts the web over the full height, so the two corners where web and
    flange meet are counted twice; with the web of the inertia branch,
    [height - 2 * flange_thickness], the area is 5808. *)
Theorem i_beam_area_is_not_4800 :
  calculateArea I_BEAM testProfiles.iBeam = Returned 6000%float /\
  PrimFloat.eqb 6000 4800 = false /\
  assertClose 6000 4800 = false /\
  ((300 - 2 * 12) * 8 + 2 * 150 * 12 = 5808)%float /\
  calculateMomentOfInertiaX I_BEAM testProfiles.iBeam
  = Returned (8 * Math_pow (300 - 2 * 12) 3 / 12
              + 2 * (150 * Math_pow 12 3 / 12
                     + 150 * 12 * Math_pow (300 / 2 - 12 / 2) 2))%float.
Proof. repeat split; reflexivity. Qed.

(** ** Registry lookups for unknown types *)

(** C9, as stated, fails: for the unknown type ['invalid_type'] the limits
    lookup returns the empty object and the table lookups are
    [undefined]. *)
Lemma unknown_type_lookups_are_silent :
  ("invalid_type" ∉ values ProfileType) /\
  ProfileValidator.getDimensionLimits "invalid_type" = Own [] /\
  get RequiredDimensions "invalid_type" = Missing /\
  get OptionalDimensions "invalid_type" = Missing.
Proof.
  repeat split; try reflexivity. decide_closed.
Qed.

(** C9, amended: for every type outside the six values of the enumeration,
    no registry lookup throws or yields an error result: the profile-specific
    switch applies no rule; when the type is not the name of a property of
    [Object.prototype], [RequiredDimensions[type]] and
    [OptionalDimensions[type]] are [undefined] and [getDimensionLimits(type)]
    returns the empty object; when it is such a name, the three lookups
    return the inherited property. *)
Theorem unknown_type_lookups (type : string) :
  type ∉ values ProfileType ->
  (forall dimensions result, checkProfile type dimensions result = result) /\
  (type ∉ ObjectPrototype ->
     get RequiredDimensions type = Missing /\
     get OptionalDimensions type = Missing /\
     ProfileValidator.getDimensionLimits type = Own []) /\
  (type ∈ ObjectPrototype ->
     get RequiredDimensions type = Inherited type /\
     get OptionalDimensions type = Inherited type /\
     ProfileValidator.getDimensionLimits type = Inherited type).
Proof.
  intros Htype.
  unfold ProfileValidator.getDimensionLimits, get, checkProfile.
  cbn [own RequiredDimensions OptionalDimensions ProfileValidator.specificLimits].
  not_a_profile_type Htype.
  split; [done |]. split; intros Hproto.
  - by rewrite !bool_decide_eq_false_2 by assumption.
  - by rewrite !bool_decide_eq_true_2 by assumption.
Qed.

Lemma unknown_type_lookups_witness :
  (forall dimensions result,
     checkProfile "invalid_type" dimensions result = result) /\
  (get RequiredDimensions "invalid_type" = Missing /\
   get OptionalDimensions "invalid_type" = Missing /\
   ProfileValidator.getDimensionLimits "invalid_type" = Own []) /\
  (get RequiredDimensions "toString" = Inherited "toString" /\
   get OptionalDimensions "toString" = Inherited "toString" /\
   ProfileValidator.getDimensionLimits "toString" = Inherited "toString").
Proof.
  split; [| split].
  - apply (unknown_type_lookups "invalid_type"). decide_closed.
  - apply (proj1 (proj2 (unknown_type_lookups "invalid_type" ltac:(decide_closed)))).
    decide_closed.
  - apply (proj2 (proj2 (unknown_type_lookups "toString" ltac:(decide_closed)))).
    decide_closed.
Defined.


(** * Further properties of the code *)

(** ** Binary64 facts *)

Section Floats.

Local Open Scope float_scope.

Lemma mul_nan_l (x : float) : nan * x = nan.
Proof. apply Prim2SF_inj. rewrite mul_spec, Prim2SF_nan. reflexivity. Qed.

Lemma mul_nan_r (x : float) : x * nan = nan.
Proof.
  apply Prim2SF_inj. rewrite mul_spec, Prim2SF_nan.
  by destruct (Prim2SF x).
Qed.

Lemma add_nan_l (x : float) : nan + x = nan.
Proof. apply Prim2SF_inj. rewrite add_spec, Prim2SF_nan. reflexivity. Qed.

Lemma add_nan_r (x : float) : x + nan = nan.
Proof.
  apply Prim2SF_inj. rewrite add_spec, Prim2SF_nan.
  by destruct (Prim2SF x).
Qed.

Lemma sub_nan_l (x : float) : nan - x = nan.
Proof. apply Prim2SF_inj. rewrite sub_spec, Prim2SF_nan. reflexivity. Qed.

Lemma sub_nan_r (x : float) : x - nan = nan.
Proof.
  apply Prim2SF_inj. rewrite sub_spec, Prim2SF_nan.
  by destruct (Prim2SF x).
Qed.

Lemma div_nan_l (x : float) : nan / x = nan.
Proof. apply Prim2SF_inj. rewrite div_spec, Prim2SF_nan. reflexivity. Qed.

Lemma div_nan_r (x : float) : x / nan = nan.
Proof.
  apply Prim2SF_inj. rewrite div_spec, Prim2SF_nan.
  by destruct (Prim2SF x).
Qed.

Lemma sqrt_nan : Math_sqrt nan = nan.
Proof. reflexivity. Qed.

(** Swapping the operands of a comparison reverses its result. *)
Lemma SFcompare_swap (x y : spec_float) :
  SFcompare y x = CompOpp <$> SFcompare x y.
Proof.
  destruct x as [sx | sx | | sx mx ex], y as [sy | sy | | sy my ey];
    try destruct sx; try destruct sy; try reflexivity; cbn.
  - rewrite (Z.compare_antisym ey ex).
    destruct (ey ?= ex)%Z; cbn; try reflexivity.
    change (Pos.compare_cont Eq my mx) with (Pos.compare my mx).
    change (Pos.compare_cont Eq mx my) with (Pos.compare mx my).
    rewrite (Pos.compare_antisym mx my).
    by destruct (mx ?= my)%positive.
  - rewrite (Z.compare_antisym ey ex).
    destruct (ey ?= ex)%Z; cbn; try reflexivity.
    change (Pos.compare_cont Eq my mx) with (Pos.compare my mx).
    change (Pos.compare_cont Eq mx my) with (Pos.compare mx my).
    rewrite (Pos.compare_antisym mx my).
    by destruct (mx ?= my)%positive.
Qed.

Lemma SFcompare_nan (x y : spec_float) :
  SFcompare x y = None -> x = S754_nan \/ y = S754_nan.
Proof.
  destruct x as [sx | sx | | sx mx ex], y as [sy | sy | | sy my ey];
    try destruct sx; try destruct sy; cbn; auto; discriminate.
Qed.

Lemma is_nan_false (x : float) :
  PrimFloat.is_nan x = false -> Prim2SF x <> S754_nan.
Proof.
  unfold PrimFloat.is_nan. rewrite FloatAxioms.eqb_spec. intros H Hnan.
  rewrite Hnan in H. discriminate.
Qed.

(** [x < y] implies that [x >= y] is false, whatever the operands. *)
Lemma lt_not_ge (x y : float) : lt x y = true -> ge x y = false.
Proof.
  unfold lt, ge. rewrite ltb_spec, leb_spec. unfold SFltb, SFleb.
  rewrite (SFcompare_swap (Prim2SF x) (Prim2SF y)).
  by destruct (SFcompare (Prim2SF x) (Prim2SF y)) as [[] |].
Qed.

(** Unless an operand is NaN, [x < y] is the negation of [x >= y]. *)
Lemma lt_negb_ge (x y : float) :
  PrimFloat.is_nan x = false -> PrimFloat.is_nan y = false ->
  lt x y = negb (ge x y).
Proof.
  intros Hx%is_nan_false Hy%is_nan_false.
  unfold lt, ge. rewrite ltb_spec, leb_spec. unfold SFltb, SFleb.
  rewrite (SFcompare_swap (Prim2SF x) (Prim2SF y)).
  destruct (SFcompare (Prim2SF x) (Prim2SF y)) as [[] |] eqn:Hcmp;
    try reflexivity.
  by apply SFcompare_nan in Hcmp as [? | ?].
Qed.

End Floats.

(** ** Messages *)

Lemma append_length (a b : string) :
  String.length (a +:+ b) = String.length a + String.length b.
Proof.
  induction a as [| c a IH]; [done |].
  change (String c a +:+ b) with (String c (a +:+ b)). cbn. by rewrite IH.
Qed.

(** A common suffix can be cancelled. *)
Lemma append_inj_r (s a b : string) : a +:+ s = b +:+ s -> a = b.
Proof.
  revert b. induction a as [| c a IH]; intros [| d b] H.
  - done.
  - apply (f_equal String.length) in H.
    rewrite !append_length in H. cbn in H. lia.
  - apply (f_equal String.length) in H.
    rewrite !append_length in H. cbn in H. lia.
  - change (String c a +:+ s) with (String c (a +:+ s)) in H.
    change (String d b +:+ s) with (String d (b +:+ s)) in H.
    injection H as -> H. f_equal. by apply IH.
Qed.

Lemma missingMessage_inj (dim dim' : string) :
  missingMessage dim = missingMessage dim' -> dim = dim'.
Proof. apply String.app_inj. Qed.

Lemma invalidMessage_inj (dim dim' : string) :
  invalidMessage dim = invalidMessage dim' -> dim = dim'.
Proof.
  unfold invalidMessage. intros H%String.app_inj. by apply append_inj_r in H.
Qed.

Lemma optionalMessage_inj (dim dim' : string) :
  optionalMessage dim = optionalMessage dim' -> dim = dim'.
Proof.
  unfold optionalMessage. intros H%String.app_inj. by apply append_inj_r in H.
Qed.

Lemma missingMessage_initial (dim : string) :
  initial (missingMessage dim) = initial "M".
Proof. reflexivity. Qed.

Lemma invalidMessage_initial (dim : string) :
  initial (invalidMessage dim) = initial "I".
Proof. reflexivity. Qed.

(** ** The validator of the test page, pass by pass *)

Section Alone.

Variable dimensions : Dimensions.

(** What one required dimension contributes, whatever was found before. *)
Lemma checkRequired_alone (dim : string) :
  errors (checkRequired dimensions freshResult dim)
  = match dimensions !! dim with
    | None => [missingMessage dim]
    | Some v =>
        if negb (typeof_number v) || le (ToNumber v) 0
        then [invalidMessage dim] else []
    end.
Proof.
  destruct (dimensions !! dim) as [v |] eqn:Hdim.
  - rewrite (checkRequired_present _ _ _ _ Hdim). by case_match.
  - by rewrite checkRequired_missing.
Qed.

Lemma checkOptional_alone (dim : string) :
  warnings (checkOptional dimensions freshResult dim)
  = match dimensions !! dim with
    | None => []
    | Some v =>
        if negb (typeof_number v) || lt (ToNumber v) 0
        then [optionalMessage dim] else []
    end.
Proof.
  unfold checkOptional, has, read.
  destruct (dimensions !! dim) as [v |] eqn:Hdim.
  - rewrite bool_decide_eq_true_2 by by eexists. cbn. by case_match.
  - rewrite bool_decide_eq_false_2; [done |]. by intros [? ?].
Qed.

Lemma checkRequired_step (result : ValidationResult) (dim : string) :
  errors (checkRequired dimensions result dim)
  = errors result ++ errors (checkRequired dimensions freshResult dim) /\
  warnings (checkRequired dimensions result dim) = warnings result.
Proof.
  unfold checkRequired. repeat case_match; cbn; by rewrite ?app_nil_r.
Qed.

Lemma checkOptional_step (result : ValidationResult) (dim : string) :
  warnings (checkOptional dimensions result dim)
  = warnings result ++ warnings (checkOptional dimensions freshResult dim).
Proof.
  unfold checkOptional. repeat case_match; cbn; by rewrite ?app_nil_r.
Qed.

Lemma checkProfile_step (type : string) (result : ValidationResult) :
  errors (checkProfile type dimensions result)
  = errors result ++ errors (checkProfile type dimensions freshResult) /\
  warnings (checkProfile type dimensions result) = warnings result.
Proof.
  unfold checkProfile. repeat case_match; cbn; by rewrite ?app_nil_r.
Qed.

Lemma foldl_checkRequired_result (required : list string)
    (result : ValidationResult) :
  errors (foldl (checkRequired dimensions) result required)
  = errors result
    ++ (required ≫= fun dim => errors (checkRequired dimensions freshResult dim))
  /\ warnings (foldl (checkRequired dimensions) result required)
     = warnings result.
Proof.
  revert result. induction required as [| dim required IH]; intros result.
  - cbn. by rewrite app_nil_r.
  - cbn [foldl]. destruct (IH (checkRequired dimensions result dim)) as [-> ->].
    destruct (checkRequired_step result dim) as [-> ->].
    by rewrite bind_cons, (assoc_L (++)).
Qed.

Lemma foldl_checkOptional_result (optional : list string)
    (result : ValidationResult) :
  warnings (foldl (checkOptional dimensions) result optional)
  = warnings result
    ++ (optional ≫= fun dim => warnings (checkOptional dimensions freshResult dim)).
Proof.
  revert result. induction optional as [| dim optional IH]; intros result.
  - cbn. by rewrite app_nil_r.
  - cbn [foldl]. rewrite IH, checkOptional_step.
    by rewrite bind_cons, (assoc_L (++)).
Qed.

(** The messages of the profile-specific switch all start with "T". *)
Lemma checkProfile_initial (type message : string) :
  message ∈ errors (checkProfile type dimensions freshResult) ->
  initial message = initial "T".
Proof.
  unfold checkProfile.
  repeat case_match; cbn;
    intros Hin; try (by apply elem_of_nil in Hin);
    by apply list_elem_of_singleton in Hin as ->.
Qed.

End Alone.

Lemma bind_nil_iff {A B} (f : A -> list B) (l : list A) :
  l ≫= f = [] <-> forall x, x ∈ l -> f x = [].
Proof.
  induction l as [| a l IH].
  - split; [| done]. intros _ x H. by apply elem_of_nil in H.
  - rewrite bind_cons. split.
    + intros [Ha Hl]%app_eq_nil x [-> | Hx]%elem_of_cons; [done |].
      by apply IH.
    + intros H. rewrite (H a) by apply list_elem_of_here. cbn.
      apply IH. intros x Hx. by apply H, list_elem_of_further.
Qed.

(** X1: the validator of profileTypes.js has two behaviours only, whatever
    the dimensions: it throws a TypeError when [type] is the name of a
    constant of the enumeration or of a property of [Object.prototype], and
    returns the single error "Invalid profile type: <type>" otherwise.  It
    never returns a valid result and never reports on a dimension. *)
Theorem module_validator_outcomes (type : string) (dimensions : Dimensions) :
  ProfileValidator.validateDimensions type dimensions
  = if bool_decide (type ∈ ProfileType.*1) || bool_decide (type ∈ ObjectPrototype)
    then Threw TypeError
    else Returned {| isValid := false;
                     errors := [invalidTypeMessage type];
                     warnings := [] |}.
Proof.
  assert (Hgate : truthy (get ProfileType type)
                  = bool_decide (type ∈ ProfileType.*1)
                    || bool_decide (type ∈ ObjectPrototype)).
  { unfold get. cbn [own ProfileType].
    repeat case_bool_decide; subst; try reflexivity;
      try (exfalso;
           match goal with H : _ ∉ ProfileType.*1 |- _ => apply H end;
           decide_closed).
    exfalso.
    match goal with H : type ∈ ProfileType.*1 |- _ => cbn in H;
      repeat (apply elem_of_cons in H as [? | H]; [congruence |]);
      by apply elem_of_nil in H
    end. }
  destruct (truthy (get ProfileType type)) eqn:Htruthy; rewrite <- Hgate.
  - by apply module_gate_passed_throws.
  - unfold ProfileValidator.validateDimensions. by rewrite Htruthy.
Qed.

(** The result of the test page's validator for a type of the enumeration,
    list by list. *)
Lemma page_validator_lists (type : string) (dimensions : Dimensions) :
  type ∈ values ProfileType ->
  exists required optional result,
    get RequiredDimensions type = Own required /\
    get OptionalDimensions type = Own optional /\
    TestPage.validateDimensions type dimensions = Returned result /\
    errors result
    = (required ≫= fun dim => errors (checkRequired dimensions freshResult dim))
      ++ errors (checkProfile type dimensions freshResult) /\
    warnings result
    = (optional ≫= fun dim => warnings (checkOptional dimensions freshResult dim)) /\
    consistent result.
Proof.
  intros Htype.
  destruct (checkDimensions_returns type dimensions freshResult Htype)
    as (required & optional & Hrequired & Hoptional & Hreturned).
  exists required, optional. eexists.
  split; [done |]. split; [done |].
  split; [by rewrite page_gate_admits |].
  destruct (checkProfile_step dimensions type
              (foldl (checkOptional dimensions)
                 (foldl (checkRequired dimensions) freshResult required)
                 optional)) as [-> ->].
  destruct (checkOptional_errors dimensions
              (foldl (checkRequired dimensions) freshResult required)
              optional) as [_ ->].
  rewrite foldl_checkOptional_result.
  destruct (foldl_checkRequired_result dimensions required freshResult)
    as [-> ->].
  repeat split; try done.
  - eapply checkDimensions_consistent;
      [apply freshResult_consistent | exact Hreturned].
  - eapply checkDimensions_consistent;
      [apply freshResult_consistent | exact Hreturned].
Qed.



(** A required dimension contributes no error exactly when it holds a
    number that is not [<= 0]. *)
Lemma checkRequired_accepts (dimensions : Dimensions) (dim : string) :
  errors (checkRequired dimensions freshResult dim) = [] <->
  exists x, dimensions !! dim = Some (Number x) /\ le x 0 = false.
Proof.
  rewrite checkRequired_alone.
  destruct (dimensions !! dim) as [[| | b | x] |]; cbn;
    try (split; [discriminate | by intros (? & [=] & _)]).
  unfold le. destruct (PrimFloat.leb x 0) eqn:Hle.
  - split; [discriminate |]. intros (y & [= <-] & Hy). congruence.
  - split; [by eexists | done].
Qed.

(** Only the six type strings have a table of required dimensions. *)
Lemma required_table_keys (type : string) (required : list string) :
  get RequiredDimensions type = Own required -> type ∈ values ProfileType.
Proof.
  destruct (decide (type ∈ values ProfileType)) as [| Htype]; [done |].
  unfold get. cbn [own RequiredDimensions].
  not_a_profile_type Htype. by case_match.
Qed.

(** A valid result: what it says about the dimensions. *)
Lemma page_valid_required (type : string) (dimensions : Dimensions)
    (result : ValidationResult) :
  TestPage.validateDimensions type dimensions = Returned result ->
  isValid result = true ->
  exists required,
    get RequiredDimensions type = Own required /\
    (forall dim, dim ∈ required ->
       exists x, dimensions !! dim = Some (Number x) /\ le x 0 = false) /\
    errors (checkProfile type dimensions freshResult) = [].
Proof.
  intros Hresult Hvalid.
  destruct (decide (type ∈ values ProfileType)) as [Htype | Htype].
  - destruct (page_validator_lists type dimensions Htype)
      as (required & optional & result' & Hreq & _ & Hres & Herr & _ & Hcons).
    rewrite Hresult in Hres. injection Hres as <-.
    apply Hcons in Hvalid. rewrite Herr in Hvalid.
    apply app_eq_nil in Hvalid as [Hrequired Hprofile].
    exists required. split; [done |]. split; [| done].
    intros dim Hdim. apply checkRequired_accepts.
    by apply (proj1 (bind_nil_iff _ _) Hrequired).
  - rewrite page_gate_rejects in Hresult by done. injection Hresult as <-.
    discriminate.
Qed.

(** X3: a result of the test page's validator is valid exactly when the
    type has a table of required dimensions, every one of them holds a
    number that is not [<= 0] (NaN included), and the profile-specific rule
    raises no error.  *)
Theorem page_validator_accepts (type : string) (dimensions : Dimensions)
    (result : ValidationResult) :
  TestPage.validateDimensions type dimensions = Returned result ->
  isValid result = true <->
  exists required,
    get RequiredDimensions type = Own required /\
    (forall dim, dim ∈ required ->
       exists x, dimensions !! dim = Some (Number x) /\ le x 0 = false) /\
    errors (checkProfile type dimensions freshResult) = [].
Proof.
  intros Hresult. split; [by apply page_valid_required |].
  intros (required & Hreq & Hall & Hprofile).
  destruct (page_validator_lists type dimensions
              (required_table_keys _ _ Hreq))
    as (required' & optional & result' & Hreq' & _ & Hres & Herr & _ & Hcons).
  rewrite Hreq in Hreq'. injection Hreq' as <-.
  rewrite Hresult in Hres. injection Hres as <-.
  apply Hcons. rewrite Herr, Hprofile, app_nil_r. apply bind_nil_iff.
  intros dim Hdim. by apply checkRequired_accepts, Hall.
Qed.

Lemma page_validator_accepts_witness :
  isValid freshResult = true <->
  exists required,
    get RequiredDimensions ROUND_TUBE = Own required /\
    (forall dim, dim ∈ required ->
       exists x, inputs.nanRoundTube !! dim = Some (Number x) /\ le x 0 = false) /\
    errors (checkProfile ROUND_TUBE inputs.nanRoundTube freshResult) = [].
Proof.
  apply (page_validator_accepts ROUND_TUBE inputs.nanRoundTube freshResult).
  reflexivity.
Defined.

Lemma checkRequired_alone_elem (dimensions : Dimensions) (dim message : string) :
  message ∈ errors (checkRequired dimensions freshResult dim) <->
  (dimensions !! dim = None /\ message = missingMessage dim) \/
  (exists v, dimensions !! dim = Some v /\
             negb (typeof_number v) || le (ToNumber v) 0 = true /\
             message = invalidMessage dim).
Proof.
  rewrite checkRequired_alone.
  destruct (dimensions !! dim) as [v |].
  - destruct (negb (typeof_number v) || le (ToNumber v) 0) eqn:Hbad.
    + rewrite list_elem_of_singleton. split.
      * intros ->. right. by exists v.
      * by intros [[[=] _] | (? & _ & _ & ->)].
    + split.
      * by intros ?%elem_of_nil.
      * intros [[[=] _] | (v' & [= <-] & Hbad' & _)]. congruence.
  - rewrite list_elem_of_singleton. split.
    + intros ->. by left.
    + by intros [[_ ->] | (? & [=] & _)].
Qed.

Lemma checkOptional_alone_elem (dimensions : Dimensions) (dim message : string) :
  message ∈ warnings (checkOptional dimensions freshResult dim) <->
  exists v, dimensions !! dim = Some v /\
            negb (typeof_number v) || lt (ToNumber v) 0 = true /\
            message = optionalMessage dim.
Proof.
  rewrite checkOptional_alone.
  destruct (dimensions !! dim) as [v |].
  - destruct (negb (typeof_number v) || lt (ToNumber v) 0) eqn:Hbad.
    + rewrite list_elem_of_singleton. split.
      * intros ->. by exists v.
      * by intros (? & _ & _ & ->).
    + split.
      * by intros ?%elem_of_nil.
      * intros (v' & [= <-] & Hbad' & _). congruence.
  - split.
    + by intros ?%elem_of_nil.
    + by intros (? & [=] & _).
Qed.

(** The "missing" errors and their cause. *)
Lemma page_missing_iff (type : string) (dimensions : Dimensions)
    (result : ValidationResult) (required : list string) (dim : string) :
  TestPage.validateDimensions type dimensions = Returned result ->
  get RequiredDimensions type = Own required ->
  missingMessage dim ∈ errors result <->
  dim ∈ required /\ dimensions !! dim = None.
Proof.
  intros Hresult Hreq.
  destruct (page_validator_lists type dimensions
              (required_table_keys _ _ Hreq))
    as (required' & optional' & result' & Hreq' & _ & Hres & Herr & _ & _).
  rewrite Hreq in Hreq'. injection Hreq' as <-.
  rewrite Hresult in Hres. injection Hres as <-.
  rewrite Herr. split.
  - intros [Hin | Hin]%elem_of_app.
    + apply list_elem_of_bind in Hin as (dim' & Hin & Hdim').
      apply checkRequired_alone_elem in Hin
        as [[Hnone Heq] | (v & _ & _ & Heq)].
      * apply missingMessage_inj in Heq as <-. done.
      * apply (f_equal initial) in Heq. discriminate.
    + apply checkProfile_initial in Hin. discriminate.
  - intros [Hin Hnone]. apply elem_of_app. left.
    apply list_elem_of_bind. exists dim. split; [| done].
    apply checkRequired_alone_elem. by left.
Qed.

(** X4: in a result of the test page's validator, each message appears
    exactly when its cause is there: "Missing required dimension: d" when
    [d] is required and absent, "Invalid value for d" when [d] is required
    and holds a value that is not a number or is [<= 0], and the warning for
    [d] when [d] is optional and holds a value that is not a number or is
    [< 0].  An absent optional dimension and a dimension outside the two
    tables are never reported. *)
Theorem page_validator_messages (type : string) (dimensions : Dimensions)
    (result : ValidationResult) (required optional : list string) :
  TestPage.validateDimensions type dimensions = Returned result ->
  get RequiredDimensions type = Own required ->
  get OptionalDimensions type = Own optional ->
  forall dim,
    (missingMessage dim ∈ errors result <->
       dim ∈ required /\ dimensions !! dim = None) /\
    (invalidMessage dim ∈ errors result <->
       dim ∈ required /\
       exists v, dimensions !! dim = Some v /\
                 negb (typeof_number v) || le (ToNumber v) 0 = true) /\
    (optionalMessage dim ∈ warnings result <->
       dim ∈ optional /\
       exists v, dimensions !! dim = Some v /\
                 negb (typeof_number v) || lt (ToNumber v) 0 = true).
Proof.
  intros Hresult Hreq Hopt dim.
  split; [by apply (page_missing_iff type) |].
  destruct (page_validator_lists type dimensions
              (required_table_keys _ _ Hreq))
    as (required' & optional' & result' & Hreq' & Hopt' & Hres & Herr & Hwarn & _).
  rewrite Hreq in Hreq'. injection Hreq' as <-.
  rewrite Hopt in Hopt'. injection Hopt' as <-.
  rewrite Hresult in Hres. injection Hres as <-.
  rewrite Herr, Hwarn. split; split.
  - intros [Hin | Hin]%elem_of_app.
    + apply list_elem_of_bind in Hin as (dim' & Hin & Hdim').
      apply checkRequired_alone_elem in Hin
        as [[Hnone Heq] | (v & Hv & Hbad & Heq)].
      * apply (f_equal initial) in Heq. discriminate.
      * apply invalidMessage_inj in Heq as <-. split; [done |]. by exists v.
    + apply checkProfile_initial in Hin. discriminate.
  - intros [Hin (v & Hv & Hbad)]. apply elem_of_app. left.
    apply list_elem_of_bind. exists dim. split; [| done].
    apply checkRequired_alone_elem. right. by exists v.
  - intros Hin.
    apply list_elem_of_bind in Hin as (dim' & Hin & Hdim').
    apply checkOptional_alone_elem in Hin as (v & Hv & Hbad & Heq).
    apply optionalMessage_inj in Heq as <-. split; [done |]. by exists v.
  - intros [Hin (v & Hv & Hbad)].
    apply list_elem_of_bind. exists dim. split; [| done].
    apply checkOptional_alone_elem. by exists v.
Qed.

Lemma page_validator_messages_witness :
  let result :=
    {| isValid := false;
       errors := [ "Invalid value for width: must be a positive number";
                   "Missing required dimension: thickness";
                   "Missing required dimension: length" ];
       warnings := [] |} in
  (missingMessage "thickness" ∈ errors result <->
     "thickness" ∈ ["width"; "thickness"; "length"] /\
     ({[ "width" := Null ]} : Dimensions) !! "thickness" = None) /\
  (invalidMessage "thickness" ∈ errors result <->
     "thickness" ∈ ["width"; "thickness"; "length"] /\
     exists v, ({[ "width" := Null ]} : Dimensions) !! "thickness" = Some v /\
               negb (typeof_number v) || le (ToNumber v) 0 = true) /\
  (optionalMessage "thickness" ∈ warnings result <->
     "thickness" ∈ ["outer_radius"; "inner_radius"] /\
     exists v, ({[ "width" := Null ]} : Dimensions) !! "thickness" = Some v /\
               negb (typeof_number v) || lt (ToNumber v) 0 = true).
Proof.
  apply (page_validator_messages SQUARE_TUBE {[ "width" := Null ]});
    reflexivity.
Defined.

(** X5: the rules configured in core/config/profiles.js and the switch of
    the validator agree for round tubes, rectangular tubes and angles.  Each
    of these types has one configured rule; whatever the dimensions, the rule
    checks [thickness < bound] where the switch tests [thickness >= bound],
    for the bound of the type: half the diameter, half the smaller of width
    and height, the smaller of width and height.  So a dimension set that
    satisfies the configured rule raises no error in the switch, and one
    that fails it raises the rule's own message unless the thickness or the
    bound is NaN.  Channels and I-beams have no rule in either place. *)
Theorem configured_rules_agree (type : string) :
  (type ∈ [ROUND_TUBE; RECTANGULAR_TUBE; ANGLE] ->
     exists rule,
       get ProfileConfig.ProfileValidation type = Own [rule] /\
       forall (dimensions : Dimensions) (result : ValidationResult),
         let thickness := num dimensions "thickness" in
         let bound := thicknessBound type dimensions in
         ProfileConfig.check rule dimensions = lt thickness bound /\
         checkProfile type dimensions result
         = (if ge thickness bound
            then fail result (ProfileConfig.message rule) else result) /\
         (ProfileConfig.check rule dimensions = true ->
            checkProfile type dimensions result = result) /\
         (PrimFloat.is_nan thickness = false ->
          PrimFloat.is_nan bound = false ->
          ProfileConfig.check rule dimensions = false ->
            checkProfile type dimensions result
            = fail result (ProfileConfig.message rule))) /\
  (type ∈ [CHANNEL; I_BEAM] ->
     get ProfileConfig.ProfileValidation type = Missing /\
     forall (dimensions : Dimensions) (result : ValidationResult),
       checkProfile type dimensions result = result).
Proof.
  split; intros Htype.
  - assert (Hagree : forall rule message (dimensions : Dimensions) result bound,
              ProfileConfig.check rule dimensions
              = lt (num dimensions "thickness") bound ->
              ProfileConfig.message rule = message ->
              checkProfile type dimensions result
              = (if ge (num dimensions "thickness") bound
                 then fail result message else result) ->
              ProfileConfig.check rule dimensions
              = lt (num dimensions "thickness") bound /\
              checkProfile type dimensions result
              = (if ge (num dimensions "thickness") bound
                 then fail result (ProfileConfig.message rule) else result) /\
              (ProfileConfig.check rule dimensions = true ->
                 checkProfile type dimensions result = result) /\
              (PrimFloat.is_nan (num dimensions "thickness") = false ->
               PrimFloat.is_nan bound = false ->
               ProfileConfig.check rule dimensions = false ->
                 checkProfile type dimensions result
                 = fail result (ProfileConfig.message rule))).
    { intros rule message dimensions result bound Hcheck <- Hswitch.
      split; [done |]. split; [done |]. rewrite Hcheck, Hswitch. split.
      - intros Hlt. by rewrite (lt_not_ge _ _ Hlt).
      - intros Ht Hb Hlt.
        rewrite (lt_negb_ge _ _ Ht Hb) in Hlt.
        apply negb_false_iff in Hlt. by rewrite Hlt. }
    repeat (apply elem_of_cons in Htype as [-> | Htype]);
      [ .. | by apply elem_of_nil in Htype ];
      eexists; (split; [reflexivity |]);
      intros dimensions result; cbv zeta; eapply Hagree; reflexivity.
  - repeat (apply elem_of_cons in Htype as [-> | Htype]);
      [ .. | by apply elem_of_nil in Htype ]; done.
Qed.

Lemma configured_rules_agree_witness :
  (exists rule,
     get ProfileConfig.ProfileValidation ANGLE = Own [rule] /\
     ProfileConfig.check rule testProfiles.angle = true /\
     ProfileConfig.check rule {[ "width" := Number 100; "height" := Number 50;
                                 "thickness" := Number 50 ]} = false /\
     checkProfile ANGLE testProfiles.angle freshResult = freshResult /\
     checkProfile ANGLE {[ "width" := Number 100; "height" := Number 50;
                           "thickness" := Number 50 ]} freshResult
     = fail freshResult (ProfileConfig.message rule)) /\
  (get ProfileConfig.ProfileValidation CHANNEL = Missing /\
   checkProfile CHANNEL testProfiles.channel freshResult = freshResult).
Proof.
  split.
  - destruct (proj1 (configured_rules_agree ANGLE)) as (rule & Hrule & Hagree);
      [decide_closed |].
    exists rule. split; [exact Hrule |].
    injection Hrule as <-.
    split; [reflexivity |]. split; [reflexivity |]. split.
    + apply (Hagree testProfiles.angle freshResult). reflexivity.
    + apply (Hagree {[ "width" := Number 100; "height" := Number 50;
                       "thickness" := Number 50 ]} freshResult);
        reflexivity.
  - destruct (proj2 (configured_rules_agree CHANNEL)) as [Hrule Hswitch];
      [decide_closed |].
    split; [exact Hrule | apply Hswitch].
Defined.

(** ** The limits table *)

(** X6: for each of the six types, [getDimensionLimits] returns a table
    that has a range for every required dimension of the type and none for
    its optional dimensions, and every range of the table is a positive one:
    [0 < min <= max]. *)
Theorem dimension_limits_cover_required (type : string) :
  type ∈ values ProfileType ->
  exists required optional limits,
    get RequiredDimensions type = Own required /\
    get OptionalDimensions type = Own optional /\
    ProfileValidator.getDimensionLimits type = Own limits /\
    Forall (fun dim => is_Some (own limits dim)) required /\
    Forall (fun dim => own limits dim = None) optional /\
    Forall (fun entry : string * ProfileValidator.limit =>
              lt 0 (ProfileValidator.min entry.2) = true /\
              le (ProfileValidator.min entry.2) (ProfileValidator.max entry.2)
              = true) limits.
Proof.
  intros Htype.
  each_profile_type Htype; do 3 eexists;
    (split; [reflexivity |]); (split; [reflexivity |]);
    (split; [reflexivity |]); repeat split; decide_closed.
Qed.

Lemma dimension_limits_cover_required_witness :
  exists required optional limits,
    get RequiredDimensions I_BEAM = Own required /\
    get OptionalDimensions I_BEAM = Own optional /\
    ProfileValidator.getDimensionLimits I_BEAM = Own limits /\
    Forall (fun dim => is_Some (own limits dim)) required /\
    Forall (fun dim => own limits dim = None) optional /\
    Forall (fun entry : string * ProfileValidator.limit =>
              lt 0 (ProfileValidator.min entry.2) = true /\
              le (ProfileValidator.min entry.2) (ProfileValidator.max entry.2)
              = true) limits.
Proof.
  apply (dimension_limits_cover_required I_BEAM). decide_closed.
Defined.

(** ** What the calculator reads *)

Create Rewrite HintDb nan_operand.
#[export] Hint Rewrite mul_nan_l mul_nan_r add_nan_l add_nan_r
  sub_nan_l sub_nan_r div_nan_l div_nan_r sqrt_nan : nan_operand.

(** Only the six type strings have section dimensions. *)
Lemma sectionDimensions_keys (type dim : string) :
  dim ∈ sectionDimensions type -> type ∈ values ProfileType.
Proof.
  destruct (decide (type ∈ values ProfileType)) as [| Htype]; [done |].
  unfold sectionDimensions. not_a_profile_type Htype. cbn.
  by intros ?%elem_of_nil.
Qed.

(** X7: the five operations of the calculator read only the section
    dimensions of the type: two dimension objects in which each of these
    reads [dimensions[dim]] yields the same value give the same results.  In
    particular no result depends on [length], on an optional dimension, or
    (for a channel) on [width]. *)
Theorem calculator_reads_section_dimensions
    (type : string) (dimensions dimensions' : Dimensions) (density : float) :
  (forall dim, dim ∈ sectionDimensions type ->
     read dimensions dim = read dimensions' dim) ->
  calculateArea type dimensions = calculateArea type dimensions' /\
  calculateMomentOfInertiaX type dimensions
  = calculateMomentOfInertiaX type dimensions' /\
  calculateSectionModulusX type dimensions
  = calculateSectionModulusX type dimensions' /\
  calculateWeightPerLength type dimensions density
  = calculateWeightPerLength type dimensions' density /\
  calculateRadiusOfGyration type dimensions
  = calculateRadiusOfGyration type dimensions'.
Proof.
  intros Hread.
  assert (Hsame : forall dim, dim ∈ sectionDimensions type ->
            num dimensions dim = num dimensions' dim).
  { intros dim Hdim. unfold num. by rewrite (Hread dim Hdim). }
  destruct (decide (type ∈ values ProfileType)) as [Htype | Htype].
  - each_profile_type Htype;
      cbv -[num];
      repeat match goal with
             | |- context [num dimensions ?dim] =>
                 rewrite (Hsame dim) by decide_closed
             end;
      done.
  - unfold calculateSectionModulusX, calculateWeightPerLength,
      calculateRadiusOfGyration.
    by rewrite !calculateArea_unsupported,
      !calculateMomentOfInertiaX_unsupported by done.
Qed.

Lemma calculator_reads_section_dimensions_witness :
  calculateArea CHANNEL testProfiles.channel
  = calculateArea CHANNEL (<["width" := Null]> (delete "length" testProfiles.channel)) /\
  calculateMomentOfInertiaX CHANNEL testProfiles.channel
  = calculateMomentOfInertiaX CHANNEL
      (<["width" := Null]> (delete "length" testProfiles.channel)) /\
  calculateSectionModulusX CHANNEL testProfiles.channel
  = calculateSectionModulusX CHANNEL
      (<["width" := Null]> (delete "length" testProfiles.channel)) /\
  calculateWeightPerLength CHANNEL testProfiles.channel 7850
  = calculateWeightPerLength CHANNEL
      (<["width" := Null]> (delete "length" testProfiles.channel)) 7850 /\
  calculateRadiusOfGyration CHANNEL testProfiles.channel
  = calculateRadiusOfGyration CHANNEL
      (<["width" := Null]> (delete "length" testProfiles.channel)).
Proof.
  apply (calculator_reads_section_dimensions CHANNEL).
  intros dim Hdim.
  repeat (apply elem_of_cons in Hdim as [-> | Hdim]); [ .. | by apply elem_of_nil in Hdim ];
    reflexivity.
Defined.

(** X8: the calculator does not check its input.  When a section dimension
    of the type is missing, [undefined] or NaN, none of the five operations
    throws: each returns NaN. *)
Theorem missing_dimension_gives_nan
    (type : string) (dimensions : Dimensions) (dim : string) (density : float) :
  dim ∈ sectionDimensions type ->
  num dimensions dim = nan ->
  calculateArea type dimensions = Returned nan /\
  calculateMomentOfInertiaX type dimensions = Returned nan /\
  calculateSectionModulusX type dimensions = Returned nan /\
  calculateWeightPerLength type dimensions density = Returned nan /\
  calculateRadiusOfGyration type dimensions = Returned nan.
Proof.
  intros Hdim Hnan.
  pose proof (sectionDimensions_keys _ _ Hdim) as Htype.
  each_profile_type Htype;
    cbn in Hdim;
    (repeat (apply elem_of_cons in Hdim as [-> | Hdim]);
     [ .. | by apply elem_of_nil in Hdim ]);
    cbv -[num]; rewrite !Hnan; autorewrite with nan_operand; done.
Qed.

Lemma missing_dimension_gives_nan_witness :
  calculateArea I_BEAM (delete "web_thickness" testProfiles.iBeam)
  = Returned nan /\
  calculateMomentOfInertiaX I_BEAM (delete "web_thickness" testProfiles.iBeam)
  = Returned nan /\
  calculateSectionModulusX I_BEAM (delete "web_thickness" testProfiles.iBeam)
  = Returned nan /\
  calculateWeightPerLength I_BEAM (delete "web_thickness" testProfiles.iBeam) 7850
  = Returned nan /\
  calculateRadiusOfGyration I_BEAM (delete "web_thickness" testProfiles.iBeam)
  = Returned nan.
Proof.
  apply (missing_dimension_gives_nan I_BEAM _ "web_thickness").
  - decide_closed.
  - reflexivity.
Defined.

(** ** Property lookup on object literals *)

Lemma own_None {A} (o : object A) (key : string) :
  own o key = None <-> key ∉ o.*1.
Proof.
  induction o as [| [k a] o IH]; cbn.
  - split; [| done]. intros _ H. by apply elem_of_nil in H.
  - case_bool_decide as Hk.
    + subst. split; [done |]. intros H. exfalso. apply H, list_elem_of_here.
    + rewrite IH. split.
      * intros Hnot [? | ?]%elem_of_cons; [congruence | done].
      * intros Hnot Hin. apply Hnot. by apply list_elem_of_further.
Qed.

Lemma own_Some_elem {A} (o : object A) (key : string) (a : A) :
  own o key = Some a -> key ∈ o.*1 /\ a ∈ o.*2.
Proof.
  induction o as [| [k b] o IH]; cbn; [done |].
  case_bool_decide as Hk.
  - intros [= ->]. subst. split; apply list_elem_of_here.
  - intros [? ?]%IH. split; by apply list_elem_of_further.
Qed.

(** ** unitConverter.js *)

Import UnitConverter.

(** The four unit types have their tables; each table lists positive
    factors under distinct names, none of which is inherited. *)
Lemma convert_factors_found (type : string) :
  type ∈ values UnitType ->
  exists factors,
    get ConversionFactors type = Own factors /\
    getAvailableUnits type = factors.*1 /\
    NoDup factors.*1 /\
    Forall (fun unit => unit ∉ ObjectPrototype) factors.*1 /\
    Forall (fun factor => lt 0 factor = true /\ truthy_factor (Own factor) = true)
           factors.*2.
Proof.
  intros Htype. cbn in Htype.
  repeat (apply elem_of_cons in Htype as [-> | Htype]);
    [ .. | by apply elem_of_nil in Htype ];
    eexists; (split; [reflexivity |]); (split; [reflexivity |]);
    repeat split; decide_closed.
Qed.

(** Outside the four unit types there is no table. *)
Lemma getAvailableUnits_unknown (type : string) :
  type ∉ values UnitType -> getAvailableUnits type = [].
Proof.
  intros Htype. unfold getAvailableUnits, get.
  cbn [own ConversionFactors].
  repeat case_bool_decide; subst;
    try (exfalso; apply Htype; decide_closed); done.
Qed.

(** What a unit is to a table: listed, inherited, or unknown. *)
Lemma get_listed (factors : object float) (unit : string) :
  unit ∈ factors.*1 ->
  exists factor, get factors unit = Own factor /\ own factors unit = Some factor /\
                 factor ∈ factors.*2.
Proof.
  intros Hin. unfold get. destruct (own factors unit) as [factor |] eqn:Hown.
  - exists factor. split; [done |]. split; [done |].
    by apply own_Some_elem in Hown as [_ ?].
  - by apply own_None in Hown.
Qed.

Lemma get_not_listed (factors : object float) (unit : string) :
  unit ∉ factors.*1 ->
  get factors unit
  = if bool_decide (unit ∈ ObjectPrototype) then Inherited unit else Missing.
Proof. intros Hin%own_None. unfold get. by rewrite Hin. Qed.

(** X9: [convert] fails explicitly in two cases, whatever the value: with
    "Invalid unit type: <type>" when the type is not one of the four unit
    types, and with "Invalid unit conversion: <from> to <to>" when one of
    the two units is neither listed for the type nor the name of a property
    of [Object.prototype].  The type is checked first. *)
Theorem convert_rejects (value : float) (fromUnit toUnit type : string) :
  (type ∉ values UnitType ->
     convert value fromUnit toUnit type
     = Threw (Error (UnitConverter.invalidTypeMessage type))) /\
  (type ∈ values UnitType ->
     ((fromUnit ∉ getAvailableUnits type) /\ (fromUnit ∉ ObjectPrototype)) \/
     ((toUnit ∉ getAvailableUnits type) /\ (toUnit ∉ ObjectPrototype)) ->
     convert value fromUnit toUnit type
     = Threw (Error (invalidConversionMessage fromUnit toUnit))).
Proof.
  split; intros Htype.
  - unfold convert. by rewrite bool_decide_eq_false_2.
  - destruct (convert_factors_found type Htype)
      as (factors & Hfactors & Hunits & _).
    rewrite Hunits. unfold convert.
    rewrite bool_decide_eq_true_2, Hfactors by done. cbn [negb].
    intros [[Hfrom Hproto] | [Hto Hproto]].
    + rewrite (get_not_listed _ _ Hfrom), bool_decide_eq_false_2 by done.
      done.
    + rewrite (get_not_listed _ _ Hto), (bool_decide_eq_false_2 _ Hproto).
      cbn. by rewrite orb_true_r.
Qed.

Lemma convert_rejects_witness :
  convert 1 "mm" "m" "invalid" = Threw (Error "Invalid unit type: invalid") /\
  convert 1 "invalid" "m" LENGTH
  = Threw (Error "Invalid unit conversion: invalid to m").
Proof.
  split.
  - apply (proj1 (convert_rejects 1 "mm" "m" "invalid")). decide_closed.
  - apply (proj2 (convert_rejects 1 "invalid" "m" LENGTH)).
    + decide_closed.
    + left. split; decide_closed.
Defined.

(** X10: every unit that [getAvailableUnits(type)] lists is accepted by
    [convert], in both positions: for two listed units the call returns
    [value * fromFactor / toFactor], where the two factors are the positive
    entries of the table of the type. *)
Theorem convert_listed_units (fromUnit toUnit type : string) :
  fromUnit ∈ getAvailableUnits type ->
  toUnit ∈ getAvailableUnits type ->
  exists factors fromFactor toFactor,
    get ConversionFactors type = Own factors /\
    own factors fromUnit = Some fromFactor /\
    own factors toUnit = Some toFactor /\
    lt 0 fromFactor = true /\ lt 0 toFactor = true /\
    forall value,
      convert value fromUnit toUnit type
      = Returned (value * fromFactor / toFactor)%float.
Proof.
  intros Hfrom Hto.
  destruct (decide (type ∈ values UnitType)) as [Htype | Htype];
    [| rewrite getAvailableUnits_unknown in Hfrom by done;
       by apply elem_of_nil in Hfrom].
  destruct (convert_factors_found type Htype)
    as (factors & Hfactors & Hunits & _ & _ & Hpositive).
  rewrite Hunits in Hfrom, Hto.
  destruct (get_listed _ _ Hfrom) as (fromFactor & Hgf & Hof & Hinf).
  destruct (get_listed _ _ Hto) as (toFactor & Hgt & Hot & Hint).
  rewrite Forall_forall in Hpositive.
  destruct (Hpositive _ Hinf) as [Hposf Htruthyf].
  destruct (Hpositive _ Hint) as [Hpost Htruthyt].
  exists factors, fromFactor, toFactor. repeat (split; [done |]).
  intros value. unfold convert.
  rewrite bool_decide_eq_true_2, Hfactors, Hgf, Hgt by done.
  by rewrite Htruthyf, Htruthyt.
Qed.

Lemma convert_listed_units_witness :
  exists factors fromFactor toFactor,
    get ConversionFactors LENGTH = Own factors /\
    own factors "in" = Some fromFactor /\
    own factors "mm" = Some toFactor /\
    lt 0 fromFactor = true /\ lt 0 toFactor = true /\
    forall value,
      convert value "in" "mm" LENGTH
      = Returned (value * fromFactor / toFactor)%float.
Proof.
  apply (convert_listed_units "in" "mm" LENGTH); decide_closed.
Defined.

(** X11: a unit that is the name of a property of [Object.prototype]
    ([toString], [constructor], ...) passes the unit check, because the
    lookup finds the inherited function; the conversion then returns NaN
    instead of failing, whatever the value. *)
Theorem convert_inherited_unit (value : float) (fromUnit toUnit type : string) :
  type ∈ values UnitType ->
  (fromUnit ∈ ObjectPrototype /\
   (toUnit ∈ ObjectPrototype \/ toUnit ∈ getAvailableUnits type)) \/
  (toUnit ∈ ObjectPrototype /\ fromUnit ∈ getAvailableUnits type) ->
  convert value fromUnit toUnit type = Returned nan.
Proof.
  intros Htype Hunits.
  destruct (convert_factors_found type Htype)
    as (factors & Hfactors & Havailable & _ & Hown & Hpositive).
  rewrite Havailable in Hunits.
  rewrite Forall_forall in Hown. rewrite Forall_forall in Hpositive.
  assert (Hinherited : forall unit, unit ∈ ObjectPrototype ->
            get factors unit = Inherited unit).
  { intros unit Hunit. rewrite get_not_listed.
    - by rewrite bool_decide_eq_true_2.
    - intros Hlisted. by apply (Hown _ Hlisted). }
  unfold convert. rewrite bool_decide_eq_true_2, Hfactors by done. cbn [negb].
  destruct Hunits as [[Hfrom [Hto | Hto]] | [Hto Hfrom]].
  - rewrite !Hinherited by done. cbn. by rewrite mul_nan_r, div_nan_l.
  - destruct (get_listed _ _ Hto) as (toFactor & -> & _ & Hin).
    destruct (Hpositive _ Hin) as [_ Htruthy].
    rewrite Hinherited, Htruthy by done. cbn.
    by rewrite mul_nan_r, div_nan_l.
  - destruct (get_listed _ _ Hfrom) as (fromFactor & -> & _ & Hin).
    destruct (Hpositive _ Hin) as [_ Htruthy].
    rewrite Hinherited, Htruthy by done. cbn.
    by rewrite div_nan_r.
Qed.

Lemma convert_inherited_unit_witness :
  convert 1 "toString" "mm" LENGTH = Returned nan /\
  convert 1 "mm" "constructor" LENGTH = Returned nan.
Proof.
  split.
  - apply (convert_inherited_unit 1 "toString" "mm" LENGTH).
    + decide_closed.
    + left. split; [decide_closed |]. right. decide_closed.
  - apply (convert_inherited_unit 1 "mm" "constructor" LENGTH).
    + decide_closed.
    + right. split; decide_closed.
Defined.

(** X12: [getAvailableUnits] lists units, without repetition, exactly for
    the four unit types; for any other argument, the names of inherited
    properties included, it returns the empty array. *)
Theorem available_units (type : string) :
  (getAvailableUnits type <> [] <-> type ∈ values UnitType) /\
  NoDup (getAvailableUnits type).
Proof.
  destruct (decide (type ∈ values UnitType)) as [Htype | Htype].
  - assert (Hunits : getAvailableUnits type <> [] /\
                     NoDup (getAvailableUnits type)).
    { pose proof Htype as Hcases. cbn in Hcases.
      repeat (apply elem_of_cons in Hcases as [-> | Hcases]);
        [ .. | by apply elem_of_nil in Hcases ];
        (split; [discriminate | decide_closed]). }
    destruct Hunits as [Hsome Hnodup]. by repeat split.
  - rewrite getAvailableUnits_unknown by done.
    split; [done | constructor].
Qed.

(** *** [convertDimensions] *)

Lemma convertEntries_snoc (fromUnit toUnit : string)
    (entries : list (string * value)) (entry : string * value) :
  convertEntries fromUnit toUnit (entries ++ [entry])
  = (result ← convertEntries fromUnit toUnit entries;
     convertEntry fromUnit toUnit result entry).
Proof. unfold convertEntries. by rewrite foldl_snoc. Qed.

(** Whether a conversion succeeds does not depend on the value. *)
Lemma convert_uniform (fromUnit toUnit type : string) :
  (exists fromFactor toFactor, forall value,
     convert value fromUnit toUnit type
     = Returned (value * fromFactor / toFactor)%float) \/
  (exists e, forall value, convert value fromUnit toUnit type = Threw e).
Proof.
  unfold convert. repeat case_match; eauto.
Qed.

Lemma assign_scaled (fromFactor toFactor : float) (result : Dimensions)
    (key : string) (v : value) :
  assign (scaled fromFactor toFactor <$> delete "__proto__" result) key
    (scaled fromFactor toFactor v)
  = scaled fromFactor toFactor <$> delete "__proto__" (<[key := v]> result).
Proof.
  unfold assign. case_bool_decide as Hkey.
  - subst. by rewrite delete_insert_eq.
  - by rewrite delete_insert_ne, fmap_insert.
Qed.

Lemma assign_kept (result : Dimensions) (key : string) (v : value) :
  assign (delete "__proto__" result) key v
  = delete "__proto__" (<[key := v]> result).
Proof.
  unfold assign. case_bool_decide as Hkey.
  - subst. by rewrite delete_insert_eq.
  - by rewrite delete_insert_ne.
Qed.

Section Entries.

Variables fromUnit toUnit : string.

(** With units that convert, each entry is scaled or kept. *)
Lemma convertEntries_scaled (fromFactor toFactor : float)
    (entries : list (string * value)) :
  (forall x, convert x fromUnit toUnit LENGTH
             = Returned (x * fromFactor / toFactor)%float) ->
  NoDup entries.*1 ->
  convertEntries fromUnit toUnit entries
  = Returned (scaled fromFactor toFactor
                <$> delete "__proto__" (list_to_map entries)).
Proof.
  intros Hconvert.
  induction entries as [| [key v] entries IH] using rev_ind; intros Hnodup.
  - cbn. by rewrite delete_empty, fmap_empty.
  - rewrite fmap_app in Hnodup. apply NoDup_app in Hnodup as (Hnodup & Hkey & _).
    rewrite convertEntries_snoc, IH by done.
    assert (Hfresh : key ∉ entries.*1).
    { intros Hin. apply (Hkey _ Hin). cbn. apply list_elem_of_here. }
    rewrite list_to_map_snoc by done.
    rewrite <- assign_scaled.
    unfold convertEntry. cbn.
    destruct v as [| | b | x]; try done.
    by rewrite Hconvert.
Qed.

(** With units that do not convert, the first number met ends the loop. *)
Lemma convertEntries_rejected (e : thrown) (entries : list (string * value)) :
  (forall x, convert x fromUnit toUnit LENGTH = Threw e) ->
  NoDup entries.*1 ->
  convertEntries fromUnit toUnit entries
  = if bool_decide (Exists (fun entry => typeof_number entry.2 = true) entries)
    then Threw e else Returned (delete "__proto__" (list_to_map entries)).
Proof.
  intros Hconvert.
  induction entries as [| [key v] entries IH] using rev_ind; intros Hnodup.
  - rewrite bool_decide_eq_false_2; [| by intros ?%Exists_nil].
    cbn. by rewrite delete_empty.
  - rewrite fmap_app in Hnodup. apply NoDup_app in Hnodup as (Hnodup & Hkey & _).
    assert (Hfresh : key ∉ entries.*1).
    { intros Hin. apply (Hkey _ Hin). cbn. apply list_elem_of_here. }
    rewrite convertEntries_snoc, IH by done.
    case_bool_decide as Hnumber.
    + rewrite bool_decide_eq_true_2; [done |].
      apply Exists_app. by left.
    + unfold convertEntry. cbn.
      destruct v as [| | b | x];
        try (rewrite bool_decide_eq_false_2;
             [ by rewrite list_to_map_snoc, assign_kept
             | intros [? | Hlast]%Exists_app; [done |];
               apply Exists_cons in Hlast as [? | ?%Exists_nil]; done ]).
      rewrite Hconvert, bool_decide_eq_true_2; [done |].
      apply Exists_app. right. by constructor.
Qed.

End Entries.

(** X13: with two units that [convert] accepts for lengths,
    [convertDimensions] returns an object with the same keys (but for a key
    [__proto__], which the assignment drops) in which every number is
    [value * fromFactor / toFactor] and every other value is kept as it is.
    The result is the same for every order in which the entries of the
    object are enumerated. *)
Theorem convertDimensions_scales (dimensions : Dimensions)
    (fromUnit toUnit : string) (fromFactor toFactor : float) :
  (forall x, convert x fromUnit toUnit LENGTH
             = Returned (x * fromFactor / toFactor)%float) ->
  exists converted,
    convertDimensions dimensions fromUnit toUnit = Returned converted /\
    (forall entries, NoDup entries.*1 -> list_to_map entries = dimensions ->
       convertEntries fromUnit toUnit entries = Returned converted) /\
    (forall key, key <> "__proto__" ->
       converted !! key = scaled fromFactor toFactor <$> dimensions !! key) /\
    converted !! "__proto__" = None.
Proof.
  intros Hconvert.
  exists (scaled fromFactor toFactor <$> delete "__proto__" dimensions).
  split; [| split; [| split]].
  - unfold convertDimensions.
    rewrite (convertEntries_scaled _ _ _ _ _ Hconvert)
      by apply NoDup_fst_map_to_list.
    by rewrite list_to_map_to_list.
  - intros entries Hnodup <-. by apply convertEntries_scaled.
  - intros key Hkey. by rewrite lookup_fmap, lookup_delete_ne.
  - by rewrite lookup_fmap, lookup_delete_eq.
Qed.

Lemma convertDimensions_scales_witness :
  exists converted,
    convertDimensions testProfiles.rectangularTube "mm" "cm"
    = Returned converted /\
    (forall entries, NoDup entries.*1 ->
       list_to_map entries = testProfiles.rectangularTube ->
       convertEntries "mm" "cm" entries = Returned converted) /\
    (forall key, key <> "__proto__" ->
       converted !! key = scaled 1 10 <$> testProfiles.rectangularTube !! key) /\
    converted !! "__proto__" = None.
Proof.
  apply (convertDimensions_scales testProfiles.rectangularTube "mm" "cm" 1 10).
  intros x. reflexivity.
Defined.

(** X14: with units that [convert] rejects, [convertDimensions] throws
    the error of [convert] exactly when the object holds a number; an object
    without numbers (the empty object included) is returned as it is (less
    a key [__proto__]), and the invalid units go unnoticed. *)
Theorem convertDimensions_rejects (dimensions : Dimensions)
    (fromUnit toUnit : string) (e : thrown) :
  (forall x, convert x fromUnit toUnit LENGTH = Threw e) ->
  ((exists key x, dimensions !! key = Some (Number x)) ->
     convertDimensions dimensions fromUnit toUnit = Threw e) /\
  ((forall key x, dimensions !! key <> Some (Number x)) ->
     convertDimensions dimensions fromUnit toUnit
     = Returned (delete "__proto__" dimensions)).
Proof.
  intros Hconvert. unfold convertDimensions.
  rewrite (convertEntries_rejected _ _ _ _ Hconvert)
    by apply NoDup_fst_map_to_list.
  rewrite list_to_map_to_list. split.
  - intros (key & x & Hkey). rewrite bool_decide_eq_true_2; [done |].
    apply Exists_exists. exists (key, Number x).
    split; [| done]. by apply elem_of_map_to_list.
  - intros Hnone. rewrite bool_decide_eq_false_2; [done |].
    intros ([key v] & Hin & Hnumber)%Exists_exists.
    apply elem_of_map_to_list in Hin.
    destruct v as [| | b | x]; try done. by apply (Hnone key x).
Qed.

Lemma convertDimensions_rejects_witness :
  convertDimensions testProfiles.roundTube "mm" "furlong"
  = Threw (Error "Invalid unit conversion: mm to furlong") /\
  convertDimensions {[ "height" := Null ]} "mm" "furlong"
  = Returned (delete "__proto__" {[ "height" := Null ]}).
Proof.
  split.
  - apply (proj1 (convertDimensions_rejects testProfiles.roundTube
                    "mm" "furlong" _ ltac:(intros x; reflexivity))).
    exists "diameter", 100%float. reflexivity.
  - apply (proj2 (convertDimensions_rejects {[ "height" := Null ]}
                    "mm" "furlong"
                    (Error "Invalid unit conversion: mm to furlong")
                    ltac:(intros x; reflexivity))).
    intros key x Hkey.
    destruct (decide (key = "height")) as [-> | Hne].
    + rewrite lookup_singleton_eq in Hkey. discriminate.
    + rewrite lookup_singleton_ne in Hkey by done. discriminate.
Defined.

(** *** The unit system *)

(** What every reachable state satisfies. *)
Lemma reachable_state (this : converter) :
  reachable this ->
  currentSystem this ∈ values UnitSystem /\
  currentSystem this = default METRIC (snd <$> last (emitted this)) /\
  Forall (fun event : string * string =>
            event.1 = "units:systemChanged" /\ event.2 ∈ values UnitSystem)
         (emitted this).
Proof.
  induction 1 as [| system this this' _ IH Hset].
  - split; [decide_closed |]. split; [done | constructor].
  - destruct IH as (_ & _ & Hevents).
    unfold setUnitSystem in Hset. case_bool_decide as Hsystem; [| done].
    injection Hset as <-. cbn [currentSystem emitted].
    split; [done |]. split.
    + by rewrite last_snoc.
    + apply Forall_app. split; [done |].
      constructor; [by split | constructor].
Qed.

(** X15: a converter is always in one of the two unit systems.  In every
    state reached from the constructor by calls of [setUnitSystem] (those
    that throw leave the state as it was), [currentSystem] is "metric" or
    "imperial"; it is the system of the last event emitted, or metric when
    none was; every event emitted is a "units:systemChanged" with a valid
    system; and [getDefaultUnit] returns, for each of the four unit types, a
    unit that [getAvailableUnits] lists for the type.  A call with an
    invalid system throws and reaches no new state. *)
Theorem unit_system_stays_valid (this : converter) (type : string) :
  reachable this ->
  type ∈ values UnitType ->
  currentSystem this ∈ values UnitSystem /\
  currentSystem this = default METRIC (snd <$> last (emitted this)) /\
  Forall (fun event : string * string =>
            event.1 = "units:systemChanged" /\ event.2 ∈ values UnitSystem)
         (emitted this) /\
  (exists unit,
     getDefaultUnit this type = Returned (Own unit) /\
     unit ∈ getAvailableUnits type) /\
  (forall system, system ∉ values UnitSystem ->
     setUnitSystem system this = Threw (Error (invalidSystemMessage system))).
Proof.
  intros Hreachable Htype.
  destruct (reachable_state this Hreachable) as (Hvalid & Hlast & Hevents).
  split; [done |]. split; [done |]. split; [done |]. split.
  - unfold getDefaultUnit.
    cbn in Hvalid, Htype.
    repeat (apply elem_of_cons in Hvalid as [-> | Hvalid]);
      [ .. | by apply elem_of_nil in Hvalid ];
      (repeat (apply elem_of_cons in Htype as [-> | Htype]);
       [ .. | by apply elem_of_nil in Htype ]);
      eexists; (split; [reflexivity | decide_closed]).
  - intros system Hsystem. unfold setUnitSystem.
    by rewrite bool_decide_eq_false_2.
Qed.

Lemma unit_system_stays_valid_witness :
  let this :=
    {| currentSystem := IMPERIAL;
       emitted := [("units:systemChanged", IMPERIAL)] |} in
  currentSystem this ∈ values UnitSystem /\
  currentSystem this = default METRIC (snd <$> last (emitted this)) /\
  Forall (fun event : string * string =>
            event.1 = "units:systemChanged" /\ event.2 ∈ values UnitSystem)
         (emitted this) /\
  (exists unit,
     getDefaultUnit this WEIGHT = Returned (Own unit) /\
     unit ∈ getAvailableUnits WEIGHT) /\
  (forall system, system ∉ values UnitSystem ->
     setUnitSystem system this = Threw (Error (invalidSystemMessage system))).
Proof.
  apply (unit_system_stays_valid
           {| currentSystem := IMPERIAL;
              emitted := [("units:systemChanged", IMPERIAL)] |} WEIGHT).
  - apply (reachable_setUnitSystem IMPERIAL create).
    + apply reachable_create.
    + reflexivity.
  - decide_closed.
Defined.

(** ** Conversion, validation and calculation together *)

(** A conversion that returns keeps the keys and the kinds of the values. *)
Lemma convertDimensions_kinds (dimensions dimensions' : Dimensions)
    (fromUnit toUnit : string) :
  convertDimensions dimensions fromUnit toUnit = Returned dimensions' ->
  forall key, key <> "__proto__" ->
    typeof_number <$> dimensions' !! key = typeof_number <$> dimensions !! key.
Proof.
  unfold convertDimensions. intros Hconverted key Hkey.
  destruct (convert_uniform fromUnit toUnit LENGTH)
    as [(fromFactor & toFactor & Hconvert) | (e & Hconvert)].
  - rewrite (convertEntries_scaled _ _ _ _ _ Hconvert) in Hconverted
      by apply NoDup_fst_map_to_list.
    rewrite list_to_map_to_list in Hconverted. injection Hconverted as <-.
    rewrite lookup_fmap, lookup_delete_ne by done.
    by destruct (dimensions !! key) as [[] |].
  - rewrite (convertEntries_rejected _ _ _ _ Hconvert) in Hconverted
      by apply NoDup_fst_map_to_list.
    case_bool_decide; [done |].
    rewrite list_to_map_to_list in Hconverted. injection Hconverted as <-.
    by rewrite lookup_delete_ne.
Qed.

(** [__proto__] is no dimension of the tables. *)
Lemma proto_not_required (type : string) (required : list string) :
  get RequiredDimensions type = Own required -> "__proto__" ∉ required.
Proof.
  intros Hreq. pose proof (required_table_keys _ _ Hreq) as Htype.
  each_profile_type Htype; injection Hreq as <-; decide_closed.
Qed.

(** The result of a conversion has no own [__proto__] property. *)
Lemma convertDimensions_no_proto (dimensions dimensions' : Dimensions)
    (fromUnit toUnit : string) :
  convertDimensions dimensions fromUnit toUnit = Returned dimensions' ->
  dimensions' !! "__proto__" = None.
Proof.
  unfold convertDimensions. intros Hconverted.
  destruct (convert_uniform fromUnit toUnit LENGTH)
    as [(fromFactor & toFactor & Hconvert) | (e & Hconvert)].
  - rewrite (convertEntries_scaled _ _ _ _ _ Hconvert) in Hconverted
      by apply NoDup_fst_map_to_list.
    rewrite list_to_map_to_list in Hconverted. injection Hconverted as <-.
    by rewrite lookup_fmap, lookup_delete_eq.
  - rewrite (convertEntries_rejected _ _ _ _ Hconvert) in Hconverted
      by apply NoDup_fst_map_to_list.
    case_bool_decide; [done |].
    rewrite list_to_map_to_list in Hconverted. injection Hconverted as <-.
    by rewrite lookup_delete_eq.
Qed.

(** X16: for a dimensions object that has no own property [__proto__], a
    unit conversion that returns changes neither the keys of the object nor
    which of its values are numbers; so the test page's validator reports
    the same required dimensions as missing before and after
    [convertDimensions]. *)
Theorem conversion_keeps_missing_dimensions
    (dimensions dimensions' : Dimensions) (fromUnit toUnit : string) :
  dimensions !! "__proto__" = None ->
  convertDimensions dimensions fromUnit toUnit = Returned dimensions' ->
  (forall key,
     typeof_number <$> dimensions' !! key = typeof_number <$> dimensions !! key) /\
  (forall type result result' dim,
     TestPage.validateDimensions type dimensions = Returned result ->
     TestPage.validateDimensions type dimensions' = Returned result' ->
     missingMessage dim ∈ errors result' <-> missingMessage dim ∈ errors result).
Proof.
  intros Hproto Hconverted.
  assert (Hkinds : forall key,
            typeof_number <$> dimensions' !! key
            = typeof_number <$> dimensions !! key).
  { intros key. destruct (decide (key = "__proto__")) as [-> | Hkey].
    - by rewrite Hproto, (convertDimensions_no_proto _ _ _ _ Hconverted).
    - by apply (convertDimensions_kinds _ _ _ _ Hconverted). }
  split; [done |].
  intros type result result' dim Hresult Hresult'.
  destruct (decide (type ∈ values ProfileType)) as [Htype | Htype].
  - destruct (checkDimensions_returns type dimensions freshResult Htype)
      as (required & optional & Hreq & Hopt & _).
    rewrite (page_missing_iff _ _ _ _ dim Hresult Hreq).
    rewrite (page_missing_iff _ _ _ _ dim Hresult' Hreq).
    specialize (Hkinds dim).
    destruct (dimensions !! dim), (dimensions' !! dim); try done;
      split; intros [_ [=]].
  - rewrite page_gate_rejects in Hresult, Hresult' by done.
    by injection Hresult as <-; injection Hresult' as <-.
Qed.

Lemma conversion_keeps_missing_dimensions_witness :
  (forall key,
     typeof_number <$> (scaled 1 10 <$> inputs.thickSquareTube) !! key
     = typeof_number <$> inputs.thickSquareTube !! key) /\
  (forall type result result' dim,
     TestPage.validateDimensions type inputs.thickSquareTube = Returned result ->
     TestPage.validateDimensions type (scaled 1 10 <$> inputs.thickSquareTube)
     = Returned result' ->
     missingMessage dim ∈ errors result' <-> missingMessage dim ∈ errors result).
Proof.
  apply (conversion_keeps_missing_dimensions inputs.thickSquareTube
           (scaled 1 10 <$> inputs.thickSquareTube) "mm" "cm").
  - reflexivity.
  - vm_compute. reflexivity.
Defined.

(** Every dimension the calculator reads is required by the validator. *)
Lemma sectionDimensions_required (type : string) (required : list string) :
  get RequiredDimensions type = Own required ->
  sectionDimensions type ⊆ required.
Proof.
  intros Hreq. pose proof (required_table_keys _ _ Hreq) as Htype.
  each_profile_type Htype; injection Hreq as <-; cbn;
    intros dim Hdim;
    (repeat (apply elem_of_cons in Hdim as [-> | Hdim]);
     [ .. | by apply elem_of_nil in Hdim ]);
    decide_closed.
Qed.

(** X17: dimensions that the test page's validator accepts hold, for every
    dimension the calculator reads for the type, a number that is not
    [<= 0]: the calculator never meets a missing or non-numeric operand on
    validated input. *)
Theorem validated_section_dimensions (type : string) (dimensions : Dimensions)
    (result : ValidationResult) :
  TestPage.validateDimensions type dimensions = Returned result ->
  isValid result = true ->
  forall dim, dim ∈ sectionDimensions type ->
    exists x, dimensions !! dim = Some (Number x) /\
              num dimensions dim = x /\ le x 0 = false.
Proof.
  intros Hresult Hvalid dim Hdim.
  destruct (page_valid_required _ _ _ Hresult Hvalid)
    as (required & Hreq & Hall & _).
  destruct (Hall dim) as (x & Hx & Hle).
  { by apply (sectionDimensions_required _ _ Hreq). }
  exists x. split; [done |]. split; [| done].
  unfold num, read. by rewrite Hx.
Qed.

Lemma validated_section_dimensions_witness :
  exists x, testProfiles.iBeam !! "web_thickness" = Some (Number x) /\
            num testProfiles.iBeam "web_thickness" = x /\ le x 0 = false.
Proof.
  apply (validated_section_dimensions I_BEAM testProfiles.iBeam freshResult).
  - reflexivity.
  - reflexivity.
  - decide_closed.
Defined.
